(** * RUTA-G: the route calculator of [src/index.tsx]

    A shallow embedding of the calculation core of the application: the
    entity catalog, the haversine distance, the market rules
    ([getEconomicModel]), the emission factors ([CO2_FACTORS]), the category
    filter ([filteredEntities]) and the route calculator ([routeMetrics]);
    then the state of the [App] component with its handlers
    ([toggleRoutePoint], the controls as events of [handle]), the points of
    [drawRoute] and the figures of the cards and of the summary panel.

    Numbers.  A JavaScript [number] is modelled as a mathematical real or
    [NaN]: arithmetic is exact, [NaN] is absorbing.  The rounding of IEEE
    doubles, the two signed zeros and the infinities are not modelled there;
    the only division of the source has the literal divisors [2] and [180].
    Sums are stated in the order in which the source accumulates them
    ([pathLength], [balanceFrom], [avoidedFrom]), and the figures of the
    route calculator are stated for the routes a session can build on
    [ENTITIES_DATA].  The distance function is embedded a second time on
    binary64 numbers (module [Binary64]), with the rounding, the signed
    zeros, the infinities and the [NaN] of IEEE 754.

    Strings made by [Number.prototype.toFixed] are kept structured (sign,
    scaled integer, number of fraction digits) instead of as characters.

    Catalog.  The source closes over the constant [ENTITIES_DATA]; the
    filter and the route calculator take the catalog as an argument here
    ([filteredEntities_on], [routeMetrics_on]) and [filteredEntities],
    [routeMetrics] are their instances at [ENTITIES_DATA]. *)

From Stdlib Require Import Reals.Reals Reals.Zfloor Factorial.
From Stdlib Require Import Floats.SpecFloat.
From Stdlib Require Import Lra Lia ZArith Bool String List.
Import ListNotations.

Open Scope string_scope.
Open Scope list_scope.
Open Scope R_scope.

(** ** JavaScript numbers *)

Inductive number : Type :=
| Num (r : R)
| NaN.

Declare Scope js_scope.
Delimit Scope js_scope with js.
Bind Scope js_scope with number.

Definition js_add (a b : number) : number :=
  match a, b with
  | Num x, Num y => Num (x + y)
  | _, _ => NaN
  end.

Definition js_sub (a b : number) : number :=
  match a, b with
  | Num x, Num y => Num (x - y)
  | _, _ => NaN
  end.

Definition js_mul (a b : number) : number :=
  match a, b with
  | Num x, Num y => Num (x * y)
  | _, _ => NaN
  end.

(** [a / b]; a zero divisor is outside the model (JavaScript gives an
    infinity or [NaN] there) and is mapped to [NaN]. *)
Definition js_div (a b : number) : number :=
  match a, b with
  | Num x, Num y => if Req_dec_T y 0 then NaN else Num (x / y)
  | _, _ => NaN
  end.

Infix "+" := js_add : js_scope.
Infix "-" := js_sub : js_scope.
Infix "*" := js_mul : js_scope.
Infix "/" := js_div : js_scope.

Module Math.

Definition PI : number := Num Rtrigo1.PI.

Definition sin (a : number) : number :=
  match a with Num x => Num (Rtrigo_def.sin x) | NaN => NaN end.

Definition cos (a : number) : number :=
  match a with Num x => Num (Rtrigo_def.cos x) | NaN => NaN end.

(** [Math.sqrt] of a negative number is [NaN]. *)
Definition sqrt (a : number) : number :=
  match a with
  | Num x => if Rlt_dec x 0 then NaN else Num (R_sqrt.sqrt x)
  | NaN => NaN
  end.

(** The angle of the point [(x, y)], in [(-PI, PI]]; [atan2 0 0 = 0]. *)
Definition atan2_R (y x : R) : R :=
  if Rlt_dec 0 x then atan (y / x)
  else if Rlt_dec x 0 then
    if Rlt_dec y 0 then atan (y / x) - Rtrigo1.PI
    else atan (y / x) + Rtrigo1.PI
  else if Rlt_dec 0 y then Rtrigo1.PI / 2
  else if Rlt_dec y 0 then - (Rtrigo1.PI / 2)
  else 0.

Definition atan2 (y x : number) : number :=
  match y, x with
  | Num b, Num a => Num (atan2_R b a)
  | _, _ => NaN
  end.

End Math.

(** ** Strings produced by [toFixed] *)

Inductive NumberString : Type :=
| NaNString
    (* "NaN" *)
| FixedString (negative : bool) (scaled : Z) (fractionDigits : nat)
    (* the digits of [scaled / 10 ^ fractionDigits], after "-" if [negative] *)
| LargeString (negative : bool) (magnitude : R).
    (* a magnitude of at least 10^21 is printed by ToString *)

(** [x.toFixed(f)]: the sign is taken off first; then the integer [n] with
    [n / 10^f] closest to the magnitude is chosen, the larger one on a tie. *)
Definition toFixed (x : number) (f : nat) : NumberString :=
  match x with
  | NaN => NaNString
  | Num r =>
      let negative := if Rlt_dec r 0 then true else false in
      let m := Rabs r in
      if Rle_dec (10 ^ 21) m then LargeString negative m
      else FixedString negative (Zfloor (m * 10 ^ f + / 2)) f
  end.

(** A property of the returned object: a number, a string or absent. *)
Inductive value : Type :=
| VNumber (n : number)
| VString (s : NumberString)
| VUndefined.

(** ** Types & Interfaces *)

Inductive WasteCategory : Type :=
| ACEITES | GRASAS | VIDRIO | ORGANICOS | PLASTICO | PAPEL_CARTON.

Inductive EntityRole : Type :=
| GENERADOR | GESTOR | AUTORIDAD | ADMIN.

Inductive Unit : Type :=
| kg | L | unidades.

Definition WasteCategory_eqb (a b : WasteCategory) : bool :=
  match a, b with
  | ACEITES, ACEITES | GRASAS, GRASAS | VIDRIO, VIDRIO
  | ORGANICOS, ORGANICOS | PLASTICO, PLASTICO
  | PAPEL_CARTON, PAPEL_CARTON => true
  | _, _ => false
  end.

(** The record of the source without [currency] (always ['COP']) and
    [traceabilityHash] (drawn from [Math.random], display only). *)
Record Entity : Type := mkEntity {
  id : string;
  name : string;
  role : EntityRole;
  address : string;
  wasteTypes : list WasteCategory;
  quantityDescription : string;
  availableQuantity : number;
  unit : Unit;
  pricePerUnit : number;
  lastUpdate : string;
  lat : number;
  lng : number;
  verified : bool
}.

(** ** Constants & Mock Data (Cartagena) *)

(** [CO2_FACTORS[key]]: the key of [e.wasteTypes[0]] is [None] (undefined)
    for an empty list, and the property read is then undefined as well. *)
Definition CO2_FACTORS (key : option WasteCategory) : option number :=
  match key with
  | Some ACEITES => Some (Num 2.8)
  | Some GRASAS => Some (Num 1.2)
  | Some VIDRIO => Some (Num 0.3)
  | Some ORGANICOS => Some (Num 0.5)
  | Some PLASTICO => Some (Num 1.5)
  | Some PAPEL_CARTON => Some (Num 1.0)
  | None => None
  end.

(** ToNumber of a property read: undefined becomes [NaN]. *)
Definition ToNumber (v : option number) : number :=
  match v with
  | Some n => n
  | None => NaN
  end.

Definition TRUCK_EMISSION_PER_KM : number := Num 0.25.

Inductive EconomicType : Type :=
| COSTO | GRATIS | INGRESO.

Record EconomicModel : Type := mkEconomicModel {
  type : EconomicType;
  label : string;
  color : string;
  sign : string
}.

Definition getEconomicModel (category : option WasteCategory) : EconomicModel :=
  match category with
  | Some GRASAS =>
      mkEconomicModel COSTO "Servicio de Recolección" "#F59E0B" "-"
  | Some ORGANICOS =>
      mkEconomicModel GRATIS "Recolección Gratuita" "#3B82F6" EmptyString
  | _ =>
      mkEconomicModel INGRESO "Venta de Material" "#10B981" "+"
  end.

Definition ENTITIES_DATA : list Entity :=
  [ mkEntity "1" "Restaurante El Baluarte" GENERADOR "Centro Histórico, Calle 32"
      [ACEITES] "50L Aceite Usado" (Num 50) L (Num 1500)
      "2h" (Num 10.4230) (Num (-75.5490)) true;
    mkEntity "2" "Hotel Caribe Plaza" GENERADOR "Bocagrande, Av. San Martín"
      [PLASTICO; PAPEL_CARTON] "100kg Reciclables" (Num 100) kg (Num 800)
      "5h" (Num 10.4080) (Num (-75.5550)) true;
    mkEntity "3" "Recuperadora del Caribe SAS" GESTOR "Zona Industrial Mamonal"
      [ACEITES; GRASAS] "Planta de Procesamiento" (Num 0) L (Num 0)
      "1d" (Num 10.3850) (Num (-75.5000)) true;
    mkEntity "4" "Café del Mar" GENERADOR "Baluarte Santo Domingo"
      [VIDRIO] "45 botellas" (Num 45) unidades (Num 200)
      "30m" (Num 10.4245) (Num (-75.5520)) true;
    mkEntity "5" "EPA Cartagena (Autoridad)" AUTORIDAD "Pie de la Popa"
      [] "Supervisión" (Num 0) kg (Num 0)
      "En línea" (Num 10.4180) (Num (-75.5350)) true;
    mkEntity "7" "Fritos & Más" GENERADOR "Av. Pedro de Heredia"
      [GRASAS] "Trampa de Grasa (20L)" (Num 20) L (Num 5000)
      "4h" (Num 10.4050) (Num (-75.5250)) false;
    mkEntity "8" "Mercado Bazurto Co." GENERADOR "Av. del Lago"
      [ORGANICOS] "500kg Orgánicos" (Num 500) kg (Num 0)
      "10m" (Num 10.4130) (Num (-75.5300)) false ].

(** ** Utilities (Distance Calculation) *)

Definition deg2rad (deg : number) : number :=
  (deg * (Math.PI / Num 180))%js.

Definition getDistanceFromLatLonInKm (lat1 lon1 lat2 lon2 : number) : number :=
  let R := Num 6371 in
  let dLat := deg2rad (lat2 - lat1)%js in
  let dLon := deg2rad (lon2 - lon1)%js in
  let a :=
    (Math.sin (dLat / Num 2) * Math.sin (dLat / Num 2) +
     Math.cos (deg2rad lat1) * Math.cos (deg2rad lat2) *
     Math.sin (dLon / Num 2) * Math.sin (dLon / Num 2))%js in
  let c := (Num 2 * Math.atan2 (Math.sqrt a) (Math.sqrt (Num 1 - a)))%js in
  let d := (R * c)%js in
  d.

(** ** Logic: Data Filtering *)

Inductive CategoryFilter : Type :=
| TODOS
| Category (c : WasteCategory).

(** [Array.prototype.includes] on a list of categories. *)
Fixpoint includes (l : list WasteCategory) (c : WasteCategory) : bool :=
  match l with
  | [] => false
  | x :: rest => if WasteCategory_eqb x c then true else includes rest c
  end.

(** [ENTITIES_DATA.filter(entity => ...)], for any catalog. *)
Definition filteredEntities_on
    (catalog : list Entity) (selectedCategory : CategoryFilter) : list Entity :=
  filter
    (fun entity =>
       match selectedCategory with
       | TODOS => true
       | Category c => includes (wasteTypes entity) c
       end)
    catalog.

Definition filteredEntities : CategoryFilter -> list Entity :=
  filteredEntities_on ENTITIES_DATA.

(** ** Logic: Route Calculation *)

Record RouteMetrics : Type := mkRouteMetrics {
  distance : value;
  cost : value;
  savings : value;
  goodsBalance : number;
  totalCO2 : value;
  netESG : value
}.

Definition EconomicType_eqb (a b : EconomicType) : bool :=
  match a, b with
  | COSTO, COSTO | GRATIS, GRATIS | INGRESO, INGRESO => true
  | _, _ => false
  end.

(** [routeEntities.map(id => catalog.find(e => e.id === id))]. *)
Definition findById (catalog : list Entity) (i : string) : option Entity :=
  find (fun e => String.eqb (id e) i) catalog.

(** [.filter(Boolean)]: the undefined results of [find] are dropped. *)
Fixpoint filterBoolean {A : Type} (l : list (option A)) : list A :=
  match l with
  | [] => []
  | Some x :: rest => x :: filterBoolean rest
  | None :: rest => filterBoolean rest
  end.

Definition selectedObjs (catalog : list Entity) (routeEntities : list string)
  : list Entity :=
  filterBoolean (map (findById catalog) routeEntities).

(** [for (let i = start; i < start + count; i++) acc = body i acc]. *)
Fixpoint forLoop {S : Type} (count start : nat) (body : nat -> S -> S) (acc : S) : S :=
  match count with
  | O => acc
  | Datatypes.S k => forLoop k (Datatypes.S start) body (body start acc)
  end.

(** The body of the distance loop.  Both indices are in range while
    [i < length - 1]; an index out of range would raise a TypeError in the
    source and leaves the sum unchanged here. *)
Definition distanceStep (objs : list Entity) (i : nat) (totalDist : number) : number :=
  match nth_error objs i, nth_error objs (i + 1) with
  | Some a, Some b =>
      (totalDist + getDistanceFromLatLonInKm (lat a) (lng a) (lat b) (lng b))%js
  | _, _ => totalDist
  end.

(** The callback of [selectedObjs.forEach], on the pair
    [(goodsCost, avoidedCO2)] of the variables it updates. *)
Definition accumulate (st : number * number) (e : Entity) : number * number :=
  let '(goodsCost, avoidedCO2) := st in
  let econ := getEconomicModel (hd_error (wasteTypes e)) in
  let goodsCost :=
    if EconomicType_eqb (type econ) INGRESO
    then (goodsCost + availableQuantity e * pricePerUnit e)%js
    else goodsCost in
  let goodsCost :=
    if EconomicType_eqb (type econ) COSTO
    then (goodsCost - availableQuantity e * pricePerUnit e)%js
    else goodsCost in
  let avoidedCO2 :=
    (avoidedCO2 +
     availableQuantity e * ToNumber (CO2_FACTORS (hd_error (wasteTypes e))))%js in
  (goodsCost, avoidedCO2).

(** The body of the [routeMetrics] memo, for any catalog.  The two
    returned objects differ in shape: numbers and a [savings] property in
    the short case, strings and no [savings] otherwise. *)
Definition routeMetrics_on (catalog : list Entity) (routeEntities : list string)
  : RouteMetrics :=
  if (length routeEntities <? 2)%nat then
    mkRouteMetrics (VNumber (Num 0)) (VNumber (Num 0)) (VNumber (Num 0))
                   (Num 0) (VNumber (Num 0)) (VNumber (Num 0))
  else
    let objs := selectedObjs catalog routeEntities in
    let totalDist := forLoop (length objs - 1) 0 (distanceStep objs) (Num 0) in
    let baseLogisticsCost := (totalDist * Num 2500)%js in
    let '(goodsCost, avoidedCO2) := fold_left accumulate objs (Num 0, Num 0) in
    let logisticsEmissions := (totalDist * TRUCK_EMISSION_PER_KM)%js in
    let discount := if (2 <? length routeEntities)%nat then Num 0.10 else Num 0 in
    mkRouteMetrics
      (VString (toFixed totalDist 2))
      (VString (toFixed (baseLogisticsCost * (Num 1 - discount))%js 0))
      VUndefined
      goodsCost
      (VString (toFixed avoidedCO2 1))
      (VString (toFixed (avoidedCO2 - logisticsEmissions)%js 1)).

Definition routeMetrics : list string -> RouteMetrics :=
  routeMetrics_on ENTITIES_DATA.

(** * Specification-side definitions

    The quantities the route calculator is meant to return, written by
    structural recursion on the list of resolved sites and compared below
    with the loops of [routeMetrics_on]. *)

Definition sum (l : list number) : number :=
  fold_right js_add (Num 0) l.

Definition distanceBetween (a b : Entity) : number :=
  getDistanceFromLatLonInKm (lat a) (lng a) (lat b) (lng b).

(** The legs of a route: one distance for each pair of consecutive sites. *)
Fixpoint legs (sites : list Entity) : list number :=
  match sites with
  | a :: (b :: _) as rest => distanceBetween a b :: legs rest
  | _ => []
  end.

Definition totalDistance (sites : list Entity) : number :=
  sum (legs sites).

(** The first-listed category of a site ([undefined] when it lists none). *)
Definition primaryCategory (e : Entity) : option WasteCategory :=
  hd_error (wasteTypes e).

Definition regime (e : Entity) : EconomicType :=
  type (getEconomicModel (primaryCategory e)).

(** Add the amount of a REVENUE ([INGRESO]) site, subtract that of a COST
    ([COSTO]) site, leave the balance alone for a FREE ([GRATIS]) site. *)
Fixpoint materialBalance (sites : list Entity) : number :=
  match sites with
  | [] => Num 0
  | e :: rest =>
      match regime e with
      | INGRESO => (availableQuantity e * pricePerUnit e + materialBalance rest)%js
      | COSTO => (materialBalance rest - availableQuantity e * pricePerUnit e)%js
      | GRATIS => materialBalance rest
      end
  end.

Definition emissionFactor (c : option WasteCategory) : number :=
  ToNumber (CO2_FACTORS c).

Definition avoidedOf (e : Entity) : number :=
  (availableQuantity e * emissionFactor (primaryCategory e))%js.

Definition grossAvoided (sites : list Entity) : number :=
  sum (map avoidedOf sites).

(** An identifier is known when some entity of the catalog carries it. *)
Definition known (catalog : list Entity) (i : string) : bool :=
  existsb (fun e => String.eqb (id e) i) catalog.

(** ** A completed call: a returned value or a thrown exception *)

Inductive Completion (A : Type) : Type :=
| Normal (v : A)
| Throw.
Arguments Normal {A} v.
Arguments Throw {A}.

(** Neither [getEconomicModel] nor the read of [CO2_FACTORS] contains a
    [throw]; each call completes normally with the value computed above. *)
Definition call_getEconomicModel (category : option WasteCategory)
  : Completion EconomicModel :=
  Normal (getEconomicModel category).

Definition call_avoidedCO2 (category : option WasteCategory) (quantity : number)
  : Completion number :=
  Normal (quantity * ToNumber (CO2_FACTORS category))%js.

(** ** The haversine formula on real coordinates *)

(** Radians per degree: the factor of [deg2rad]. *)
Definition degree : R := Rtrigo1.PI / 180.

(** The square of half the chord length between two points given in
    degrees: the variable [a] of the source, on real coordinates. *)
Definition haversine (lat1 lon1 lat2 lon2 : R) : R :=
  sin ((lat2 - lat1) * degree / 2) * sin ((lat2 - lat1) * degree / 2) +
  cos (lat1 * degree) * cos (lat2 * degree) *
  sin ((lon2 - lon1) * degree / 2) * sin ((lon2 - lon1) * degree / 2).

(** ** A two-site catalog on the equator, half a turn apart *)

Definition equatorSite (i : string) (lon : R) : Entity :=
  mkEntity i i GESTOR EmptyString [VIDRIO] EmptyString (Num 0) unidades (Num 0)
           EmptyString (Num 0) (Num lon) true.

Definition antipodes : list Entity :=
  [equatorSite "W" 0; equatorSite "E" 180].

(** ** The category filter *)

(** [Selection P l r]: [r] lists, in the order of [l] and as often as in
    [l], the elements of [l] that satisfy [P]. *)
Inductive Selection (P : Entity -> Prop) : list Entity -> list Entity -> Prop :=
| Selection_nil : Selection P [] []
| Selection_keep (e : Entity) (l r : list Entity) :
    P e -> Selection P l r -> Selection P (e :: l) (e :: r)
| Selection_skip (e : Entity) (l r : list Entity) :
    ~ P e -> Selection P l r -> Selection P (e :: l) r.

(** * The rest of the application

    The state of the [App] component, the handlers that change it, and the
    values the render functions compute from the route calculator. *)

(** ** Comparisons and conversions of JavaScript values *)

(** [a >= b] and [a > b]: false as soon as an operand is [NaN]. *)
Definition js_ge (a b : number) : bool :=
  match a, b with
  | Num x, Num y => if Rle_dec y x then true else false
  | _, _ => false
  end.

Definition js_gt (a b : number) : bool :=
  match a, b with
  | Num x, Num y => if Rlt_dec y x then true else false
  | _, _ => false
  end.

Definition Math_abs (a : number) : number :=
  match a with
  | Num x => Num (Rabs x)
  | NaN => NaN
  end.

(** The number a string of [toFixed] is read back as. *)
Definition StringToNumber (s : NumberString) : number :=
  match s with
  | NaNString => NaN
  | FixedString negative scaled f =>
      Num ((if negative then - IZR scaled else IZR scaled) / 10 ^ f)
  | LargeString negative magnitude =>
      Num (if negative then - magnitude else magnitude)
  end.

(** [Number(v)]. *)
Definition Number (v : value) : number :=
  match v with
  | VNumber n => n
  | VString s => StringToNumber s
  | VUndefined => NaN
  end.

(** ** State *)

Inductive ProducerMode : Type :=
| MANUAL | NA.

Record AppState : Type := mkAppState {
  currentUserRole : EntityRole;
  selectedCategory : CategoryFilter;
  selectedEntityId : option string;
  routeEntities : list string;
  producerMode : ProducerMode;
  producerName : string
}.

(** The arguments of the [useState] calls. *)
Definition initialState : AppState :=
  mkAppState GESTOR TODOS None [] MANUAL EmptyString.

Definition EntityRole_eqb (a b : EntityRole) : bool :=
  match a, b with
  | GENERADOR, GENERADOR | GESTOR, GESTOR
  | AUTORIDAD, AUTORIDAD | ADMIN, ADMIN => true
  | _, _ => false
  end.

(** ** Interaction Handlers *)

(** [routeEntities.includes(id)]. *)
Fixpoint includesId (l : list string) (i : string) : bool :=
  match l with
  | [] => false
  | x :: rest => if String.eqb x i then true else includesId rest i
  end.

(** The new route of [toggleRoutePoint]: every occurrence of [id] is
    filtered out when the route includes it, else [id] is appended. *)
Definition toggleRoutePoint (route : list string) (i : string) : list string :=
  if includesId route i
  then filter (fun x => negb (String.eqb x i)) route
  else route ++ [i].

(** [selectedEntityId === entity.id]. *)
Definition isSelected (s : AppState) (e : Entity) : bool :=
  match selectedEntityId s with
  | Some i => String.eqb i (id e)
  | None => false
  end.

(** The cards (and markers) on screen. *)
Definition visible (catalog : list Entity) (s : AppState) : list Entity :=
  filteredEntities_on catalog (selectedCategory s).

(** What the user can do.  A card is named by its position in the list on
    screen. *)
Inductive Event : Type :=
| ClickRole (r : EntityRole)            (* a button of the role switcher *)
| ClickCategory (c : WasteCategory)     (* a category button *)
| ClickEntity (k : nat)                 (* a card or its marker *)
| ClickToggle (k : nat)                 (* "Añadir a Ruta" / "Quitar de Ruta" *)
| ClickClear                            (* "Limpiar Ruta" *)
| ClickStart                            (* "Iniciar Recolección Verde" *)
| ClickVerify (k : nat)                 (* "Validar y Emitir Sello" *)
| ChangeProducerMode (m : ProducerMode) (k : nat)
| ChangeProducerName (n : string) (k : nat).

(** The state after an event, or [None] when the control is not rendered
    in the current state.  The two alerts leave the state as it is. *)
Definition handle (catalog : list Entity) (s : AppState) (ev : Event)
  : option AppState :=
  match ev with
  | ClickRole r =>
      match r with
      | ADMIN => None
      | _ => Some (mkAppState r (selectedCategory s) (selectedEntityId s)
                              (routeEntities s) (producerMode s) (producerName s))
      end
  | ClickCategory c =>
      if EntityRole_eqb (currentUserRole s) AUTORIDAD then None
      else Some (mkAppState (currentUserRole s) (Category c) (selectedEntityId s)
                            (routeEntities s) (producerMode s) (producerName s))
  | ClickEntity k =>
      match nth_error (visible catalog s) k with
      | Some e =>
          Some (mkAppState (currentUserRole s) (selectedCategory s) (Some (id e))
                           (routeEntities s) (producerMode s) (producerName s))
      | None => None
      end
  | ClickToggle k =>
      match nth_error (visible catalog s) k with
      | Some e =>
          if EntityRole_eqb (currentUserRole s) GESTOR
             && EntityRole_eqb (role e) GENERADOR
          then Some (mkAppState (currentUserRole s) (selectedCategory s)
                                (selectedEntityId s)
                                (toggleRoutePoint (routeEntities s) (id e))
                                (producerMode s) (producerName s))
          else None
      | None => None
      end
  | ClickClear =>
      if EntityRole_eqb (currentUserRole s) GESTOR
         && (0 <? length (routeEntities s))%nat
      then Some (mkAppState (currentUserRole s) (selectedCategory s)
                            (selectedEntityId s) [] (producerMode s) (producerName s))
      else None
  | ClickStart =>
      if EntityRole_eqb (currentUserRole s) GESTOR
         && (0 <? length (routeEntities s))%nat
      then Some s
      else None
  | ClickVerify k =>
      match nth_error (visible catalog s) k with
      | Some e =>
          if EntityRole_eqb (currentUserRole s) AUTORIDAD
             && isSelected s e && negb (verified e)
          then Some s
          else None
      | None => None
      end
  | ChangeProducerMode m k =>
      match nth_error (visible catalog s) k with
      | Some e =>
          if EntityRole_eqb (currentUserRole s) GENERADOR && isSelected s e
          then Some (mkAppState (currentUserRole s) (selectedCategory s)
                                (selectedEntityId s) (routeEntities s)
                                m (producerName s))
          else None
      | None => None
      end
  | ChangeProducerName n k =>
      match nth_error (visible catalog s) k with
      | Some e =>
          if EntityRole_eqb (currentUserRole s) GENERADOR && isSelected s e
          then match producerMode s with
               | MANUAL =>
                   Some (mkAppState (currentUserRole s) (selectedCategory s)
                                    (selectedEntityId s) (routeEntities s)
                                    (producerMode s) n)
               | NA => None
               end
          else None
      | None => None
      end
  end.

(** A session: the events handled one after the other. *)
Fixpoint run (catalog : list Entity) (s : AppState) (evs : list Event)
  : option AppState :=
  match evs with
  | [] => Some s
  | ev :: rest =>
      match handle catalog s ev with
      | Some s' => run catalog s' rest
      | None => None
      end
  end.

(** ** Map Updates *)

(** The points handed to [L.polyline] by [drawRoute], or [None] when no
    polyline is drawn. *)
Definition routePoints (catalog : list Entity) (route : list string)
  : option (list (number * number)) :=
  if (1 <? length route)%nat then
    Some (filterBoolean
            (map (fun i =>
                    match findById catalog i with
                    | Some e => Some (lat e, lng e)
                    | None => None
                    end)
                 route))
  else None.

(** The length of a polyline: the distances between consecutive points,
    added from the first leg on. *)
Fixpoint pathLengthFrom (acc : number) (points : list (number * number)) : number :=
  match points with
  | p :: (q :: _) as rest =>
      pathLengthFrom
        (acc + getDistanceFromLatLonInKm (fst p) (snd p) (fst q) (snd q))%js rest
  | _ => acc
  end.

Definition pathLength (points : list (number * number)) : number :=
  pathLengthFrom (Num 0) points.

(** ** Render Components *)

(** The avoided CO2 printed on a card and in [renderCalculator]. *)
Definition co2Impact (entity : Entity) : NumberString :=
  toFixed (availableQuantity entity
           * ToNumber (CO2_FACTORS (hd_error (wasteTypes entity))))%js 1.

(** The line "Balance Materiales" of [renderRouteOptimizer]: its colour,
    the sign printed, the amount handed to [toLocaleString] and the tag. *)
Record BalanceLine : Type := mkBalanceLine {
  lineColor : string;
  lineSign : string;
  lineAmount : number;
  lineTag : string
}.

Definition balanceLine (m : RouteMetrics) : BalanceLine :=
  let lineColor :=
    if js_ge (goodsBalance m) (Num 0) then "#EF4444" else "#10B981" in
  if js_gt (goodsBalance m) (Num 0)
  then mkBalanceLine lineColor "-" (goodsBalance m) "(Compra)"
  else mkBalanceLine lineColor "+" (Math_abs (goodsBalance m)) "(Servicios)".

(** The routes for which [renderRouteOptimizer] is called. *)
Definition optimizerShown (s : AppState) : bool :=
  EntityRole_eqb (currentUserRole s) GESTOR && (0 <? length (routeEntities s))%nat.

(** ** Invariants of a session *)

(** The identifier of a generator of the catalog. *)
Definition generatorId (catalog : list Entity) (i : string) : Prop :=
  exists e : Entity, In e catalog /\ id e = i /\ role e = GENERADOR.

Definition wellFormed (catalog : list Entity) (s : AppState) : Prop :=
  NoDup (routeEntities s)
  /\ Forall (generatorId catalog) (routeEntities s)
  /\ currentUserRole s <> ADMIN
  /\ (forall i : string, selectedEntityId s = Some i ->
        exists e : Entity, In e catalog /\ id e = i).

(** The position of the card of a seeded generator in the unfiltered
    list. *)
Definition cardOf (i : string) : nat :=
  if String.eqb i "1" then 0%nat
  else if String.eqb i "2" then 1%nat
  else if String.eqb i "4" then 3%nat
  else if String.eqb i "7" then 5%nat
  else 6%nat.

(** ** The accumulations of the route calculator, in source order *)

Definition coordinates (e : Entity) : number * number := (lat e, lng e).

(** The variable [goodsCost] after the sites have been visited from the
    first on: the amount [availableQuantity * pricePerUnit] is added for a
    REVENUE ([INGRESO]) site, subtracted for a COST ([COSTO]) site, and the
    variable is left as it is for a FREE ([GRATIS]) site. *)
Fixpoint balanceFrom (acc : number) (sites : list Entity) : number :=
  match sites with
  | [] => acc
  | e :: rest =>
      balanceFrom
        match regime e with
        | INGRESO => (acc + availableQuantity e * pricePerUnit e)%js
        | COSTO => (acc - availableQuantity e * pricePerUnit e)%js
        | GRATIS => acc
        end
        rest
  end.

(** The variable [avoidedCO2] after the sites have been visited from the
    first on. *)
Fixpoint avoidedFrom (acc : number) (sites : list Entity) : number :=
  match sites with
  | [] => acc
  | e :: rest => avoidedFrom (acc + avoidedOf e)%js rest
  end.

(** What the generators of the seeded catalog have in common: real
    coordinates within three hundredths of a degree of each other, and an
    avoided CO2 that is a whole number of half kilograms, between 13.5 and
    250. *)
Definition seededSite (e : Entity) : Prop :=
  (exists la lo : R,
      lat e = Num la /\ lng e = Num lo
      /\ 10.405 <= la <= 10.425 /\ -75.555 <= lo <= -75.525)
  /\ (exists z : Z, avoidedOf e = Num (IZR z / 2) /\ (27 <= z <= 500)%Z).

(** The result of the short case. *)
Definition zeroed : RouteMetrics :=
  mkRouteMetrics (VNumber (Num 0)) (VNumber (Num 0)) (VNumber (Num 0))
                 (Num 0) (VNumber (Num 0)) (VNumber (Num 0)).

(** * The distance in binary64

    The numbers of the source are IEEE 754 doubles.  [getDistanceFromLatLonInKm]
    is embedded a second time on [spec_float] with 53 bits of precision:
    [+], [-], [*] and [/] round to nearest, ties to even, and [Math.sqrt]
    is the IEEE square root, as in the engines.  ECMA-262 leaves the
    results of [Math.sin], [Math.cos] and [Math.atan2] to the engine, apart
    from special values, so the three are the fields of a record. *)

Module Binary64.

Local Open Scope Z_scope.

Definition float : Type := spec_float.
Definition prec : Z := 53.
Definition emax : Z := 1024.

Definition add : float -> float -> float := SFadd prec emax.
Definition sub : float -> float -> float := SFsub prec emax.
Definition mul : float -> float -> float := SFmul prec emax.
Definition div : float -> float -> float := SFdiv prec emax.

(** The double [m * 2 ^ e], and [+0] when [m] is 0. *)
Definition dyadic (m e : Z) : float := binary_normalize prec emax m e false.

(** An integer literal. *)
Definition ofZ (z : Z) : float := dyadic z 0.

(** The [Math] object of an engine. *)
Record MathObject : Type := mkMathObject {
  sin : float -> float;
  cos : float -> float;
  atan2 : float -> float -> float
}.

(** [Math.PI], the double 3.141592653589793. *)
Definition PI : float := S754_finite false 7074237752028440 (-51).

Definition sqrt : float -> float := SFsqrt prec emax.

Definition deg2rad (deg : float) : float :=
  mul deg (div PI (ofZ 180)).

Definition getDistanceFromLatLonInKm
    (Math : MathObject) (lat1 lon1 lat2 lon2 : float) : float :=
  let R := ofZ 6371 in
  let dLat := deg2rad (sub lat2 lat1) in
  let dLon := deg2rad (sub lon2 lon1) in
  let a :=
    add (mul (sin Math (div dLat (ofZ 2))) (sin Math (div dLat (ofZ 2))))
        (mul (mul (mul (cos Math (deg2rad lat1)) (cos Math (deg2rad lat2)))
                  (sin Math (div dLon (ofZ 2))))
             (sin Math (div dLon (ofZ 2)))) in
  let c := mul (ofZ 2) (atan2 Math (sqrt a) (sqrt (sub (ofZ 1) a))) in
  let d := mul R c in
  d.

(** A zero or a finite number: not [NaN], not an infinity. *)
Definition is_finite (x : float) : bool :=
  match x with
  | S754_zero _ | S754_finite _ _ _ => true
  | _ => false
  end.

(** Not [NaN] and the sign bit clear. *)
Definition sign_clear (x : float) : bool :=
  match x with
  | S754_zero false | S754_infinity false | S754_finite false _ _ => true
  | _ => false
  end.

(** What is assumed of the engine.  ECMA-262 prescribes [sin (+0) = +0],
    [atan2 (+-0) 1 = +-0], [NaN] for a [NaN] argument and the sign of
    [atan2 y x] (the one of [y]).  That the sine is odd and that the cosine
    of a finite number is a double of magnitude at most 1 holds of every
    usual implementation and is assumed. *)
Record Conforming (Math : MathObject) : Prop := mkConforming {
  sin_zero : sin Math (S754_zero false) = S754_zero false;
  sin_odd : forall x : float, sin Math (SFopp x) = SFopp (sin Math x);
  cos_range :
    forall x : float,
      is_finite x = true ->
      valid_binary prec emax (cos Math x) = true
      /\ SFleb (SFabs (cos Math x)) (ofZ 1) = true;
  atan2_zero : forall s : bool, atan2 Math (S754_zero s) (ofZ 1) = S754_zero s;
  atan2_nan : forall x : float, atan2 Math S754_nan x = S754_nan;
  atan2_sign :
    forall y x : float,
      sign_clear y = true ->
      atan2 Math y x = S754_nan \/ sign_clear (atan2 Math y x) = true
}.

(** A [Math] object for the examples.  It returns what ECMA-262 prescribes
    at the zeros and at [NaN], and the correctly rounded sine and cosine at
    the two arguments met below, 1.5271630954950384
    ([6877731147805428 * 2 ^ -52]) and 1.5707963267948966
    ([7074237752028440 * 2 ^ -52]).  Elsewhere it returns the small-angle
    values [x], [1] and [y]. *)
Definition tableSin (x : float) : float :=
  match x with
  | S754_finite s m e =>
      if (m =? 6877731147805428)%positive && (e =? -52)
      then S754_finite s 8998626396882423 (-53)
      else if (m =? 7074237752028440)%positive && (e =? -52)
      then S754_finite s 4503599627370496 (-52)
      else x
  | S754_zero _ => x
  | _ => S754_nan
  end.

Definition tableCos (x : float) : float :=
  match x with
  | S754_finite s m e =>
      if (m =? 6877731147805428)%positive && (e =? -52)
      then S754_finite false 6286216213909010 (-57)
      else ofZ 1
  | S754_zero _ => ofZ 1
  | _ => S754_nan
  end.

Definition tableAtan2 (y x : float) : float :=
  match y, x with
  | S754_nan, _ | _, S754_nan => S754_nan
  | _, _ => y
  end.

Definition tableMath : MathObject := mkMathObject tableSin tableCos tableAtan2.

End Binary64.

(** * Arithmetic of [number] *)

Ltac js_arith :=
  repeat match goal with
         | x : number |- _ => destruct x
         end;
  simpl; try reflexivity; try (f_equal; lra).

Lemma js_add_assoc (a b c : number) : (a + (b + c) = a + b + c)%js.
Proof. js_arith. Qed.

Lemma js_add_comm (a b : number) : (a + b = b + a)%js.
Proof. js_arith. Qed.

Lemma js_add_0_r (a : number) : (a + Num 0)%js = a.
Proof. js_arith. Qed.

Lemma js_add_0_l (a : number) : (Num 0 + a)%js = a.
Proof. js_arith. Qed.

Lemma js_sub_add_swap (g m x : number) : (g - x + m = g + (m - x))%js.
Proof. js_arith. Qed.

Lemma js_add_NaN_l (a : number) : (NaN + a)%js = NaN.
Proof. reflexivity. Qed.

Lemma js_add_NaN_r (a : number) : (a + NaN)%js = NaN.
Proof. destruct a; reflexivity. Qed.

Lemma js_mul_NaN_r (a : number) : (a * NaN)%js = NaN.
Proof. destruct a; reflexivity. Qed.

(** * The loops of the route calculator *)

Lemma nth_error_app_here {A : Type} (pre : list A) (x : A) (rest : list A) :
  nth_error (pre ++ x :: rest) (length pre) = Some x.
Proof.
  induction pre as [| p pre IH]; simpl; [reflexivity | exact IH].
Qed.

Lemma forLoop_distance (rest pre : list Entity) (acc : number) :
  forLoop (length rest - 1) (length pre) (distanceStep (pre ++ rest)) acc
  = (acc + totalDistance rest)%js.
Proof.
  revert pre acc.
  induction rest as [| a rest IH]; intros pre acc.
  - simpl. now rewrite js_add_0_r.
  - destruct rest as [| b rest].
    + simpl. now rewrite js_add_0_r.
    + replace (length (a :: b :: rest) - 1)%nat with (S (length (b :: rest) - 1))
        by (simpl; lia).
      cbn [forLoop].
      assert (Hstep : distanceStep (pre ++ a :: b :: rest) (length pre) acc
                      = (acc + distanceBetween a b)%js).
      { unfold distanceStep.
        rewrite nth_error_app_here.
        replace (pre ++ a :: b :: rest) with ((pre ++ [a]) ++ b :: rest)
          by (rewrite <- app_assoc; reflexivity).
        replace (length pre + 1)%nat with (length (pre ++ [a]))
          by (rewrite length_app; reflexivity).
        rewrite nth_error_app_here. reflexivity. }
      rewrite Hstep.
      replace (pre ++ a :: b :: rest) with ((pre ++ [a]) ++ b :: rest)
        by (rewrite <- app_assoc; reflexivity).
      replace (S (length pre)) with (length (pre ++ [a]))
        by (rewrite length_app; simpl; lia).
      rewrite IH.
      unfold totalDistance. cbn [legs sum fold_right].
      now rewrite js_add_assoc.
Qed.

Lemma distance_loop (objs : list Entity) :
  forLoop (length objs - 1) 0 (distanceStep objs) (Num 0) = totalDistance objs.
Proof.
  pose proof (forLoop_distance objs [] (Num 0)) as H.
  cbn [app length] in H. rewrite H.
  apply js_add_0_l.
Qed.

Lemma accumulate_fold (objs : list Entity) (g a : number) :
  fold_left accumulate objs (g, a)
  = ((g + materialBalance objs)%js, (a + grossAvoided objs)%js).
Proof.
  revert g a.
  induction objs as [| e objs IH]; intros g a.
  - simpl. now rewrite !js_add_0_r.
  - cbn [fold_left]. unfold accumulate at 2.
    fold (primaryCategory e). fold (regime e).
    cbn [materialBalance grossAvoided map sum fold_right].
    fold (emissionFactor (primaryCategory e)). fold (avoidedOf e).
    destruct (regime e); cbn [EconomicType_eqb]; rewrite IH; f_equal;
      first [ apply js_sub_add_swap
            | unfold grossAvoided, sum; now rewrite js_add_assoc ].
Qed.

(** * The haversine distance on real coordinates *)

Lemma sin_sqr_bounds (x : R) : 0 <= sin x * sin x <= 1.
Proof.
  pose proof (sin2_cos2 x) as H. unfold Rsqr in H.
  pose proof (Rle_0_sqr (sin x)) as Hs. unfold Rsqr in Hs.
  pose proof (Rle_0_sqr (cos x)) as Hc. unfold Rsqr in Hc.
  lra.
Qed.

Lemma cos_sqr_bounds (x : R) : 0 <= cos x * cos x <= 1.
Proof.
  pose proof (sin2_cos2 x) as H. unfold Rsqr in H.
  pose proof (Rle_0_sqr (sin x)) as Hs. unfold Rsqr in Hs.
  pose proof (Rle_0_sqr (cos x)) as Hc. unfold Rsqr in Hc.
  lra.
Qed.

(** [cos (u - v) * cos (u + v) = cos u ^ 2 - sin v ^ 2]. *)
Lemma cos_product (u v : R) :
  cos (u - v) * cos (u + v) = cos u * cos u - sin v * sin v.
Proof.
  rewrite cos_minus, cos_plus.
  pose proof (sin2_cos2 u) as Hu. unfold Rsqr in Hu.
  pose proof (sin2_cos2 v) as Hv. unfold Rsqr in Hv.
  replace ((cos u * cos v + sin u * sin v) * (cos u * cos v - sin u * sin v))
    with (cos u * cos u - sin v * sin v
          + (cos u * cos u) * (sin v * sin v + cos v * cos v - 1)
          - (sin v * sin v) * (sin u * sin u + cos u * cos u - 1))
    by ring.
  rewrite Hu, Hv. ring.
Qed.

Lemma haversine_bounds (lat1 lon1 lat2 lon2 : R) :
  0 <= haversine lat1 lon1 lat2 lon2 <= 1.
Proof.
  unfold haversine.
  set (v := (lat2 - lat1) * degree / 2).
  set (u := (lat1 + lat2) * degree / 2).
  set (w := (lon2 - lon1) * degree / 2).
  replace (lat1 * degree) with (u - v) by (unfold u, v; field).
  replace (lat2 * degree) with (u + v) by (unfold u, v; field).
  rewrite cos_product.
  pose proof (sin_sqr_bounds v) as [Hv0 Hv1].
  pose proof (cos_sqr_bounds u) as [Hu0 Hu1].
  pose proof (sin_sqr_bounds w) as [Hw0 Hw1].
  set (S := sin v * sin v) in *.
  set (C := cos u * cos u) in *.
  replace (S + (C - S) * sin w * sin w)
    with (S * (1 - sin w * sin w) + C * (sin w * sin w)) by ring.
  set (s := sin w * sin w) in *.
  assert (0 <= S * (1 - s)) by (apply Rmult_le_pos; lra).
  assert (0 <= C * s) by (apply Rmult_le_pos; lra).
  assert (S * (1 - s) <= 1 * (1 - s)) by (apply Rmult_le_compat_r; lra).
  assert (C * s <= 1 * s) by (apply Rmult_le_compat_r; lra).
  lra.
Qed.

Lemma PI_over_180 : (Math.PI / Num 180)%js = Num degree.
Proof.
  unfold Math.PI, js_div, degree. destruct (Req_dec_T 180 0); [lra | reflexivity].
Qed.

Lemma deg2rad_Num (x : R) : deg2rad (Num x) = Num (x * degree).
Proof. unfold deg2rad. now rewrite PI_over_180. Qed.

Lemma half_Num (x : R) : (Num x / Num 2)%js = Num (x / 2).
Proof. unfold js_div. destruct (Req_dec_T 2 0); [lra | reflexivity]. Qed.

(** On real coordinates the distance is a real: both square roots have a
    non-negative argument. *)
Lemma getDistance_Num (lat1 lon1 lat2 lon2 : R) :
  getDistanceFromLatLonInKm (Num lat1) (Num lon1) (Num lat2) (Num lon2)
  = Num (6371 * (2 * Math.atan2_R (sqrt (haversine lat1 lon1 lat2 lon2))
                                  (sqrt (1 - haversine lat1 lon1 lat2 lon2)))).
Proof.
  pose proof (haversine_bounds lat1 lon1 lat2 lon2) as [H0 H1].
  unfold getDistanceFromLatLonInKm.
  cbn [js_sub]. rewrite !deg2rad_Num, !half_Num.
  cbn [Math.sin Math.cos js_mul js_add].
  fold (haversine lat1 lon1 lat2 lon2).
  cbn [Math.sqrt js_sub].
  destruct (Rlt_dec (haversine lat1 lon1 lat2 lon2) 0); [lra |].
  destruct (Rlt_dec (1 - haversine lat1 lon1 lat2 lon2) 0); [lra |].
  reflexivity.
Qed.

Lemma getDistance_NaN (lat1 lon1 lat2 lon2 : number) :
  lat1 = NaN \/ lon1 = NaN \/ lat2 = NaN \/ lon2 = NaN ->
  getDistanceFromLatLonInKm lat1 lon1 lat2 lon2 = NaN.
Proof.
  intros H. unfold getDistanceFromLatLonInKm.
  destruct lat1 as [a1|], lon1 as [o1|], lat2 as [a2|], lon2 as [o2|];
    try (exfalso; destruct H as [H | [H | [H | H]]]; discriminate H);
    cbn [js_sub]; rewrite ?deg2rad_Num, ?half_Num;
    unfold deg2rad; cbn; rewrite ?js_mul_NaN_r; reflexivity.
Qed.


(** * The route calculator in closed form *)

Lemma routeMetrics_on_short (catalog : list Entity) (route : list string) :
  (length route < 2)%nat ->
  routeMetrics_on catalog route
  = mkRouteMetrics (VNumber (Num 0)) (VNumber (Num 0)) (VNumber (Num 0))
                   (Num 0) (VNumber (Num 0)) (VNumber (Num 0)).
Proof.
  intros H. unfold routeMetrics_on.
  apply Nat.ltb_lt in H. now rewrite H.
Qed.

Lemma routeMetrics_on_long (catalog : list Entity) (route : list string) :
  (2 <= length route)%nat ->
  let sites := selectedObjs catalog route in
  let discount := if (2 <? length route)%nat then Num 0.10 else Num 0 in
  routeMetrics_on catalog route
  = mkRouteMetrics
      (VString (toFixed (totalDistance sites) 2))
      (VString (toFixed (totalDistance sites * Num 2500 * (Num 1 - discount))%js 0))
      VUndefined
      (materialBalance sites)
      (VString (toFixed (grossAvoided sites) 1))
      (VString (toFixed (grossAvoided sites
                         - totalDistance sites * TRUCK_EMISSION_PER_KM)%js 1)).
Proof.
  intros H sites discount. unfold routeMetrics_on.
  assert (Hguard : (length route <? 2)%nat = false) by (apply Nat.ltb_ge; lia).
  rewrite Hguard. fold sites.
  rewrite distance_loop, accumulate_fold, !js_add_0_l.
  reflexivity.
Qed.

(** Evaluation of the catalog lookups of a concrete route. *)
Ltac resolve_route :=
  cbv [selectedObjs map findById find filterBoolean ENTITIES_DATA id
       String.eqb Ascii.eqb Bool.eqb].

Ltac eval_sites :=
  cbv [materialBalance grossAvoided avoidedOf emissionFactor regime
       primaryCategory wasteTypes hd_error getEconomicModel type
       CO2_FACTORS ToNumber availableQuantity pricePerUnit
       map sum fold_right js_add js_sub js_mul].

(** ** Evaluation of [toFixed] *)

Lemma toFixed_nonneg (r : R) (f : nat) (n : Z) :
  0 <= r -> r < 10 ^ 21 ->
  IZR n <= r * 10 ^ f + / 2 < IZR n + 1 ->
  toFixed (Num r) f = FixedString false n f.
Proof.
  intros H0 Hbig Hn. unfold toFixed.
  destruct (Rlt_dec r 0); [lra |].
  rewrite (Rabs_pos_eq r H0).
  destruct (Rle_dec (10 ^ 21) r); [lra |].
  now rewrite (Zfloor_eq n _ Hn).
Qed.

Lemma toFixed_neg (r : R) (f : nat) :
  r < 0 -> - r < 10 ^ 21 ->
  toFixed (Num r) f = FixedString true (Zfloor (- r * 10 ^ f + / 2)) f.
Proof.
  intros H0 Hbig. unfold toFixed.
  destruct (Rlt_dec r 0); [| lra].
  rewrite (Rabs_left r H0).
  destruct (Rle_dec (10 ^ 21) (- r)); [lra | reflexivity].
Qed.

Lemma antipodes_distance :
  getDistanceFromLatLonInKm (Num 0) (Num 0) (Num 0) (Num 180)
  = Num (6371 * Rtrigo1.PI).
Proof.
  rewrite getDistance_Num.
  assert (Ha : haversine 0 0 0 180 = 1).
  { unfold haversine, degree.
    replace ((0 - 0) * (Rtrigo1.PI / 180) / 2) with 0 by field.
    replace ((180 - 0) * (Rtrigo1.PI / 180) / 2) with (Rtrigo1.PI / 2) by field.
    replace (0 * (Rtrigo1.PI / 180)) with 0 by field.
    rewrite sin_0, cos_0, sin_PI2. ring. }
  rewrite Ha.
  replace (1 - 1) with 0 by ring.
  rewrite sqrt_0, sqrt_1.
  unfold Math.atan2_R.
  destruct (Rlt_dec 0 0); [lra |].
  destruct (Rlt_dec 0 1); [| lra].
  f_equal. field.
Qed.

Lemma antipodes_totalDistance :
  totalDistance (selectedObjs antipodes ["W"; "E"]) = Num (6371 * Rtrigo1.PI).
Proof.
  cbv [selectedObjs map findById find filterBoolean antipodes equatorSite id
       String.eqb Ascii.eqb Bool.eqb].
  cbv [totalDistance legs sum fold_right distanceBetween lat lng].
  rewrite antipodes_distance. cbn [js_add]. f_equal. ring.
Qed.

Lemma PI_bounds : 3 < Rtrigo1.PI <= 4.
Proof.
  split; [| exact PI_4].
  pose proof PI2_3_2 as H. lra.
Qed.

Lemma selectedObjs_cons (catalog : list Entity) (i : string) (route : list string) :
  selectedObjs catalog (i :: route)
  = match findById catalog i with
    | Some e => e :: selectedObjs catalog route
    | None => selectedObjs catalog route
    end.
Proof.
  unfold selectedObjs. cbn [map filterBoolean].
  destruct (findById catalog i); reflexivity.
Qed.

Lemma findById_known (catalog : list Entity) (i : string) :
  known catalog i = true -> exists e, findById catalog i = Some e.
Proof.
  unfold known, findById.
  induction catalog as [| e catalog IH]; cbn [existsb find]; intros H.
  - discriminate H.
  - destruct (String.eqb (id e) i).
    + now exists e.
    + apply IH. exact H.
Qed.

Lemma selectedObjs_length_known (catalog : list Entity) (route : list string) :
  (forall i, In i route -> known catalog i = true) ->
  length (selectedObjs catalog route) = length route.
Proof.
  induction route as [| i route IH]; intros H.
  - reflexivity.
  - rewrite selectedObjs_cons.
    destruct (findById_known catalog i) as [e He].
    { apply H. now left. }
    rewrite He. cbn [length]. f_equal.
    apply IH. intros j Hj. apply H. now right.
Qed.

(** * Claims *)

Lemma toFixed_small (r : R) (f : nat) :
  0 <= r -> r < 10 ^ 21 ->
  toFixed (Num r) f = FixedString false (Zfloor (r * 10 ^ f + / 2)) f.
Proof.
  intros H0 Hbig. apply toFixed_nonneg; try assumption.
  apply Zfloor_bound.
Qed.

(** An identifier that [find] does not resolve leaves no trace in
    [selectedObjs]. *)
Lemma selectedObjs_skip_unknown
    (catalog : list Entity) (pre post : list string) (i : string) :
  findById catalog i = None ->
  selectedObjs catalog (pre ++ i :: post) = selectedObjs catalog (pre ++ post).
Proof.
  intros H. induction pre as [| j pre IH].
  - cbn [app]. rewrite selectedObjs_cons. now rewrite H.
  - cbn [app]. rewrite !selectedObjs_cons. now rewrite IH.
Qed.

(** With three or more identifiers left, removing an unknown identifier
    changes nothing in the result. *)
Lemma routeMetrics_on_skip_unknown
    (catalog : list Entity) (pre post : list string) (i : string) :
  findById catalog i = None ->
  (3 <= length (pre ++ post))%nat ->
  routeMetrics_on catalog (pre ++ i :: post) = routeMetrics_on catalog (pre ++ post).
Proof.
  intros H Hlen.
  assert (Hlen' : length (pre ++ i :: post) = S (length (pre ++ post))).
  { rewrite !length_app. cbn [length]. lia. }
  rewrite !routeMetrics_on_long by lia.
  rewrite (selectedObjs_skip_unknown catalog pre post i H).
  assert (H1 : (2 <? length (pre ++ i :: post))%nat = true)
    by (apply Nat.ltb_lt; lia).
  assert (H2 : (2 <? length (pre ++ post))%nat = true)
    by (apply Nat.ltb_lt; lia).
  now rewrite H1, H2.
Qed.

(** C7, as stated, fails: given [undefined], the value of [wasteTypes[0]]
    for an entity that lists no category, neither call throws. *)
Lemma unknown_category_is_not_rejected :
  call_getEconomicModel None
  = Normal (mkEconomicModel INGRESO "Venta de Material" "#10B981" "+")
  /\ call_getEconomicModel None <> Throw
  /\ call_avoidedCO2 None (Num 50) = Normal NaN
  /\ call_avoidedCO2 None (Num 50) <> Throw.
Proof.
  repeat split; discriminate.
Qed.

(** C7, amended.  Outside the six categories the market rules fall into
    their default branch and answer with the INGRESO model; the read of
    [CO2_FACTORS] is undefined and the product with any quantity is [NaN].
    Neither rejects.  On the six categories both tables are defined: the
    model is INGRESO except for GRASAS (COSTO) and ORGANICOS (GRATIS), and
    the factor is a positive real. *)
Theorem unknown_category_defaults :
  type (getEconomicModel None) = INGRESO
  /\ call_getEconomicModel None = Normal (getEconomicModel (Some ACEITES))
  /\ CO2_FACTORS None = None
  /\ (forall quantity : number, call_avoidedCO2 None quantity = Normal NaN)
  /\ (forall c : WasteCategory,
         type (getEconomicModel (Some c))
         = match c with
           | GRASAS => COSTO
           | ORGANICOS => GRATIS
           | _ => INGRESO
           end)
  /\ (forall c : WasteCategory,
         exists r : R, CO2_FACTORS (Some c) = Some (Num r) /\ 0 < r).
Proof.
  split; [reflexivity |].
  split; [reflexivity |].
  split; [reflexivity |].
  split.
  { intros quantity. unfold call_avoidedCO2. cbn [CO2_FACTORS ToNumber].
    now rewrite js_mul_NaN_r. }
  split.
  { intros c. destruct c; reflexivity. }
  intros c. destruct c; cbn [CO2_FACTORS]; eexists; (split; [reflexivity | lra]).
Qed.

Lemma Selection_functional (P : Entity -> Prop) (l r r' : list Entity) :
  Selection P l r -> Selection P l r' -> r = r'.
Proof.
  intros H. revert r'.
  induction H as [| e l r Hp _ IH | e l r Hn _ IH]; intros r' H'.
  - now inversion H'.
  - inversion H' as [| ? ? r0 _ Hrest | ? ? ? Hn' _]; subst.
    + f_equal. now apply IH.
    + contradiction.
  - inversion H' as [| ? ? ? Hp' _ | ? ? ? _ Hrest]; subst.
    + contradiction.
    + now apply IH.
Qed.

Lemma WasteCategory_eqb_eq (a b : WasteCategory) :
  WasteCategory_eqb a b = true <-> a = b.
Proof.
  destruct a, b; simpl; split; intros H; try reflexivity; discriminate H.
Qed.

Lemma includes_In (l : list WasteCategory) (c : WasteCategory) :
  includes l c = true <-> In c l.
Proof.
  induction l as [| x l IH]; cbn [includes In].
  - split; [discriminate | contradiction].
  - destruct (WasteCategory_eqb x c) eqn:E.
    + apply WasteCategory_eqb_eq in E. tauto.
    + split.
      * intros H. right. now apply IH.
      * intros [H | H]; [| now apply IH].
        apply WasteCategory_eqb_eq in H. congruence.
Qed.

(** C9. With TODOS the filter returns the whole catalog in its order; with
    a category it returns, in catalog order, exactly the entities that
    list this category anywhere in [wasteTypes].  On the seeded catalog
    GRASAS selects the processor "3", which lists it second, before "7". *)
Theorem filter_by_category :
  (forall catalog : list Entity, filteredEntities_on catalog TODOS = catalog)
  /\ filteredEntities TODOS = ENTITIES_DATA
  /\ (forall (catalog : list Entity) (c : WasteCategory),
         Selection (fun e => In c (wasteTypes e)) catalog
                   (filteredEntities_on catalog (Category c)))
  /\ map id (filteredEntities (Category GRASAS)) = ["3"; "7"]
  /\ map (fun e => hd_error (wasteTypes e)) (filteredEntities (Category GRASAS))
     = [Some ACEITES; Some GRASAS].
Proof.
  assert (Hall : forall catalog, filteredEntities_on catalog TODOS = catalog).
  { intros catalog. unfold filteredEntities_on.
    induction catalog as [| e catalog IH]; cbn [filter]; [reflexivity |].
    now rewrite IH. }
  split; [exact Hall |].
  split; [apply Hall |].
  split; [| split; reflexivity].
  intros catalog c. unfold filteredEntities_on.
  induction catalog as [| e catalog IH]; cbn [filter].
  - constructor.
  - destruct (includes (wasteTypes e) c) eqn:E.
    + apply Selection_keep; [| exact IH]. now apply includes_In.
    + apply Selection_skip; [| exact IH].
      intros Hin. apply includes_In in Hin. congruence.
Qed.

(** ** Entities without a category *)

Lemma sum_NaN (l : list number) : In NaN l -> sum l = NaN.
Proof.
  induction l as [| x l IH]; intros H; [contradiction |].
  cbn [sum fold_right]. destruct H as [-> | H].
  - reflexivity.
  - fold (sum l). rewrite (IH H). apply js_add_NaN_r.
Qed.

Lemma In_selectedObjs (catalog : list Entity) (route : list string)
    (i : string) (e : Entity) :
  In i route -> findById catalog i = Some e -> In e (selectedObjs catalog route).
Proof.
  intros Hin Hfind.
  induction route as [| j route IH]; [contradiction |].
  rewrite selectedObjs_cons. destruct Hin as [-> | Hin].
  - rewrite Hfind. now left.
  - destruct (findById catalog j); [right |]; now apply IH.
Qed.

Lemma avoidedOf_no_category (e : Entity) : wasteTypes e = [] -> avoidedOf e = NaN.
Proof.
  intros H. unfold avoidedOf, emissionFactor, primaryCategory.
  rewrite H. cbn [hd_error CO2_FACTORS ToNumber]. apply js_mul_NaN_r.
Qed.

Lemma grossAvoided_no_category (sites : list Entity) (e : Entity) :
  In e sites -> wasteTypes e = [] -> grossAvoided sites = NaN.
Proof.
  intros Hin Hempty. unfold grossAvoided. apply sum_NaN.
  rewrite <- (avoidedOf_no_category e Hempty).
  now apply in_map.
Qed.

(** Dropping the authority "5" from a route leaves the balance as it is. *)
Lemma materialBalance_without_authority (route : list string) :
  materialBalance (selectedObjs ENTITIES_DATA route)
  = materialBalance
      (selectedObjs ENTITIES_DATA (filter (fun i => negb (String.eqb i "5")) route)).
Proof.
  induction route as [| i route IH]; [reflexivity |].
  cbn [filter]. destruct (String.eqb_spec i "5") as [-> | Hne]; cbn [negb].
  - rewrite selectedObjs_cons.
    replace (findById ENTITIES_DATA "5") with (Some (nth 4 ENTITIES_DATA (equatorSite "" 0)))
      by reflexivity.
    cbn [nth ENTITIES_DATA materialBalance regime primaryCategory wasteTypes hd_error
         getEconomicModel type availableQuantity pricePerUnit js_mul].
    rewrite <- IH.
    destruct (materialBalance (selectedObjs ENTITIES_DATA route));
      cbn [js_add]; [f_equal; lra | reflexivity].
  - rewrite !selectedObjs_cons.
    destruct (findById ENTITIES_DATA i) as [e |]; [| exact IH].
    cbn [materialBalance]. now rewrite IH.
Qed.

(** C10. When a route of at least two identifiers contains an entity that
    lists no category, the read of [wasteTypes[0]] is undefined, its
    emission factor is undefined and the avoided CO2 and the net impact are
    both returned as "NaN"; the market rules answer with their default
    INGRESO model.  On the seeded catalog this entity is the authority
    "5", with quantity 0 and price 0: the balance is that of the route
    without it. *)
Theorem empty_wasteTypes_gives_NaN :
  (forall (catalog : list Entity) (route : list string) (i : string) (e : Entity),
      (2 <= length route)%nat ->
      In i route ->
      findById catalog i = Some e ->
      wasteTypes e = [] ->
      primaryCategory e = None
      /\ CO2_FACTORS (primaryCategory e) = None
      /\ avoidedOf e = NaN
      /\ regime e = INGRESO
      /\ totalCO2 (routeMetrics_on catalog route) = VString NaNString
      /\ netESG (routeMetrics_on catalog route) = VString NaNString)
  /\ (exists e : Entity,
         findById ENTITIES_DATA "5" = Some e
         /\ role e = AUTORIDAD
         /\ wasteTypes e = []
         /\ availableQuantity e = Num 0
         /\ pricePerUnit e = Num 0)
  /\ (forall route : list string,
         (2 <= length route)%nat ->
         In "5" route ->
         totalCO2 (routeMetrics route) = VString NaNString
         /\ netESG (routeMetrics route) = VString NaNString
         /\ goodsBalance (routeMetrics route)
            = materialBalance
                (selectedObjs ENTITIES_DATA
                   (filter (fun i => negb (String.eqb i "5")) route))).
Proof.
  assert (Hgen : forall catalog route i e,
            (2 <= length route)%nat -> In i route ->
            findById catalog i = Some e -> wasteTypes e = [] ->
            totalCO2 (routeMetrics_on catalog route) = VString NaNString
            /\ netESG (routeMetrics_on catalog route) = VString NaNString).
  { intros catalog route i e Hlen Hin Hfind Hempty.
    rewrite (routeMetrics_on_long catalog route Hlen). cbn [totalCO2 netESG].
    rewrite (grossAvoided_no_category _ e (In_selectedObjs _ _ _ _ Hin Hfind) Hempty).
    split; reflexivity. }
  split.
  - intros catalog route i e Hlen Hin Hfind Hempty.
    split; [unfold primaryCategory; now rewrite Hempty |].
    split; [unfold primaryCategory; now rewrite Hempty |].
    split; [now apply avoidedOf_no_category |].
    split; [unfold regime, primaryCategory; now rewrite Hempty |].
    exact (Hgen catalog route i e Hlen Hin Hfind Hempty).
  - split.
    + eexists. split; [reflexivity |]. repeat split.
    + intros route Hlen Hin.
      destruct (Hgen ENTITIES_DATA route "5" _ Hlen Hin eq_refl eq_refl) as [H1 H2].
      split; [exact H1 |]. split; [exact H2 |].
      unfold routeMetrics.
      rewrite (routeMetrics_on_long ENTITIES_DATA route Hlen). cbn [goodsBalance].
      apply materialBalance_without_authority.
Qed.

Lemma empty_wasteTypes_gives_NaN_witness :
  (2 <= length ["1"; "5"])%nat
  /\ In "5" ["1"; "5"]
  /\ totalCO2 (routeMetrics_on ENTITIES_DATA ["1"; "5"]) = VString NaNString
  /\ netESG (routeMetrics_on ENTITIES_DATA ["1"; "5"]) = VString NaNString.
Proof.
  split; [simpl; lia |].
  split; [simpl; tauto |].
  destruct (proj1 empty_wasteTypes_gives_NaN ENTITIES_DATA ["1"; "5"] "5"
              (nth 4 ENTITIES_DATA (equatorSite "" 0)))
    as (_ & _ & _ & _ & H1 & H2).
  - simpl. lia.
  - simpl. tauto.
  - reflexivity.
  - reflexivity.
  - split; [exact H1 | exact H2].
Defined.

(** * The route selection *)

Lemma includesId_In (l : list string) (i : string) :
  includesId l i = true <-> In i l.
Proof.
  induction l as [| x l IH]; cbn [includesId In].
  - split; [discriminate | contradiction].
  - destruct (String.eqb_spec x i) as [-> | Hne].
    + tauto.
    + rewrite IH. split; [tauto |]. intros [H | H]; [contradiction | exact H].
Qed.

Lemma includesId_false (l : list string) (i : string) :
  includesId l i = false <-> ~ In i l.
Proof.
  rewrite <- includesId_In. destruct (includesId l i); split; congruence.
Qed.

Lemma In_without (l : list string) (i j : string) :
  In j (filter (fun x => negb (String.eqb x i)) l) <-> In j l /\ j <> i.
Proof.
  rewrite filter_In.
  destruct (String.eqb_spec j i) as [-> | Hne]; cbn [negb]; intuition congruence.
Qed.

Lemma without_absent (l : list string) (i : string) :
  ~ In i l -> filter (fun x => negb (String.eqb x i)) l = l.
Proof.
  induction l as [| x l IH]; intros H; [reflexivity |].
  cbn [filter]. destruct (String.eqb_spec x i) as [-> | Hne]; cbn [negb].
  - exfalso. apply H. now left.
  - f_equal. apply IH. intros Hin. apply H. now right.
Qed.

Lemma toggle_In (route : list string) (i j : string) :
  In j (toggleRoutePoint route i)
  <-> (j = i /\ ~ In i route) \/ (j <> i /\ In j route).
Proof.
  unfold toggleRoutePoint.
  destruct (includesId route i) eqn:E.
  - apply includesId_In in E. rewrite In_without. tauto.
  - apply includesId_false in E. rewrite in_app_iff. cbn [In].
    destruct (String.eqb_spec j i) as [-> | Hne]; intuition congruence.
Qed.

Lemma toggle_NoDup (route : list string) (i : string) :
  NoDup route -> NoDup (toggleRoutePoint route i).
Proof.
  intros H. unfold toggleRoutePoint.
  destruct (includesId route i) eqn:E.
  - now apply NoDup_filter.
  - apply includesId_false in E.
    apply NoDup_app; [exact H | repeat constructor; intros [] |].
    intros x Hx [<- | []]. contradiction.
Qed.

(** X1. Toggling an identifier flips its membership in the route and
    leaves the membership of every other identifier as it was. *)
Theorem toggle_flips_membership (route : list string) (i : string) :
  (In i (toggleRoutePoint route i) <-> ~ In i route)
  /\ (forall j : string, j <> i ->
        (In j (toggleRoutePoint route i) <-> In j route)).
Proof.
  split.
  - rewrite toggle_In. tauto.
  - intros j Hne. rewrite toggle_In. tauto.
Qed.

Lemma toggle_flips_membership_witness :
  "7" <> "4"
  /\ (In "7" (toggleRoutePoint ["7"; "4"] "4") <-> In "7" ["7"; "4"]).
Proof.
  assert (Hne : "7" <> "4") by discriminate.
  split; [exact Hne |].
  exact (proj2 (toggle_flips_membership ["7"; "4"] "4") "7" Hne).
Defined.

(** X2. Toggling twice: an identifier that was absent is added and taken
    away again, and the route is back as it was; one that was present is
    removed everywhere and comes back once, at the end. *)
Theorem toggle_twice (route : list string) (i : string) :
  (~ In i route ->
   toggleRoutePoint (toggleRoutePoint route i) i = route)
  /\ (In i route ->
      toggleRoutePoint (toggleRoutePoint route i) i
      = filter (fun x => negb (String.eqb x i)) route ++ [i]).
Proof.
  split; intros H.
  - assert (E1 : includesId route i = false) by now apply includesId_false.
    unfold toggleRoutePoint at 2. rewrite E1.
    assert (E2 : includesId (route ++ [i]) i = true).
    { apply includesId_In, in_app_iff. right. now left. }
    unfold toggleRoutePoint. rewrite E2.
    rewrite filter_app. cbn [filter]. rewrite String.eqb_refl. cbn [negb].
    rewrite app_nil_r. now apply without_absent.
  - assert (E1 : includesId route i = true) by now apply includesId_In.
    unfold toggleRoutePoint at 2. rewrite E1.
    assert (E2 : includesId (filter (fun x => negb (String.eqb x i)) route) i = false).
    { apply includesId_false. rewrite In_without. tauto. }
    unfold toggleRoutePoint. now rewrite E2.
Qed.

Lemma toggle_twice_witness :
  ~ In "8" ["7"; "4"]
  /\ toggleRoutePoint (toggleRoutePoint ["7"; "4"] "8") "8" = ["7"; "4"]
  /\ In "7" ["7"; "4"]
  /\ toggleRoutePoint (toggleRoutePoint ["7"; "4"] "7") "7" = ["4"; "7"].
Proof.
  assert (Habs : ~ In "8" ["7"; "4"]).
  { intros [H | [H | []]]; discriminate H. }
  assert (Hin : In "7" ["7"; "4"]) by now left.
  split; [exact Habs |].
  split; [exact (proj1 (toggle_twice ["7"; "4"] "8") Habs) |].
  split; [exact Hin |].
  exact (proj2 (toggle_twice ["7"; "4"] "7") Hin).
Defined.

(** * Sessions *)

Lemma visible_In (catalog : list Entity) (s : AppState) (k : nat) (e : Entity) :
  nth_error (visible catalog s) k = Some e ->
  In e catalog
  /\ (forall c, selectedCategory s = Category c -> In c (wasteTypes e)).
Proof.
  intros H. apply nth_error_In in H.
  unfold visible, filteredEntities_on in H. apply filter_In in H.
  destruct H as [Hin Hkeep]. split; [exact Hin |].
  intros c Hc. rewrite Hc in Hkeep. now apply includes_In.
Qed.

Lemma toggle_generators (catalog : list Entity) (route : list string) (e : Entity) :
  In e catalog -> role e = GENERADOR ->
  Forall (generatorId catalog) route ->
  Forall (generatorId catalog) (toggleRoutePoint route (id e)).
Proof.
  intros Hin Hrole Hall. apply Forall_forall. intros j Hj.
  apply toggle_In in Hj. destruct Hj as [[-> _] | [_ Hj]].
  - now exists e.
  - rewrite Forall_forall in Hall. now apply Hall.
Qed.

Ltac handle_cases H :=
  repeat match type of H with
         | match ?x with _ => _ end = Some _ => destruct x eqn:?
         | (if ?b then _ else _) = Some _ => destruct b eqn:?
         | None = Some _ => discriminate H
         | Some _ = Some _ => injection H as <-
         end.

Lemma handle_wellFormed (catalog : list Entity) (s s' : AppState) (ev : Event) :
  wellFormed catalog s -> handle catalog s ev = Some s' -> wellFormed catalog s'.
Proof.
  intros (Hnd & Hgen & Hrole & Hsel) H.
  destruct ev as [r | c | k | k | | | k | m k | n k]; cbn [handle] in H.
  - destruct r; try discriminate H; injection H as <-;
      (split; [exact Hnd | split; [exact Hgen | split; [discriminate | exact Hsel]]]).
  - handle_cases H. now repeat split.
  - handle_cases H.
    split; [exact Hnd | split; [exact Hgen | split; [exact Hrole |]]].
    cbn [selectedEntityId]. intros i Hi. injection Hi as <-.
    match goal with
    | Hn : nth_error _ _ = Some ?e |- _ =>
        exists e; split; [exact (proj1 (visible_In _ _ _ _ Hn)) | reflexivity]
    end.
  - handle_cases H.
    match goal with
    | Hn : nth_error _ _ = Some ?e, Hb : (_ && _)%bool = true |- _ =>
        apply andb_prop in Hb; destruct Hb as [_ Hb];
        assert (Hr : role e = GENERADOR) by (destruct (role e); try discriminate Hb; reflexivity);
        pose proof (proj1 (visible_In _ _ _ _ Hn)) as Hin
    end.
    split; [now apply toggle_NoDup |].
    split; [now apply toggle_generators |].
    split; [exact Hrole | exact Hsel].
  - handle_cases H.
    split; [constructor | split; [constructor | split; [exact Hrole | exact Hsel]]].
  - handle_cases H. now repeat split.
  - handle_cases H. now repeat split.
  - handle_cases H. now repeat split.
  - handle_cases H. now repeat split.
Qed.

Lemma run_wellFormed (catalog : list Entity) (evs : list Event) (s s' : AppState) :
  wellFormed catalog s -> run catalog s evs = Some s' -> wellFormed catalog s'.
Proof.
  revert s. induction evs as [| ev evs IH]; intros s Hs H; cbn [run] in H.
  - now injection H as <-.
  - destruct (handle catalog s ev) as [s1 |] eqn:E; [| discriminate H].
    apply (IH s1); [| exact H]. exact (handle_wellFormed _ _ _ _ Hs E).
Qed.

Lemma initialState_wellFormed (catalog : list Entity) :
  wellFormed catalog initialState.
Proof.
  repeat split; cbn; try constructor; discriminate.
Qed.

(** X3. In every state a session can reach from the initial state, the
    route lists no identifier twice, each of its identifiers belongs to a
    generator of the catalog, the role is never ADMIN and the selected
    identifier, if any, is one of the catalog. *)
Theorem session_keeps_route_well_formed
    (catalog : list Entity) (evs : list Event) (s : AppState) :
  run catalog initialState evs = Some s ->
  NoDup (routeEntities s)
  /\ Forall (generatorId catalog) (routeEntities s)
  /\ currentUserRole s <> ADMIN
  /\ (forall i : string, selectedEntityId s = Some i ->
        exists e : Entity, In e catalog /\ id e = i).
Proof.
  intros H.
  exact (run_wellFormed catalog evs initialState s (initialState_wellFormed catalog) H).
Qed.

Lemma session_keeps_route_well_formed_witness :
  run ENTITIES_DATA initialState [ClickToggle 5; ClickEntity 3; ClickToggle 3]
  = Some (mkAppState GESTOR TODOS (Some "4") ["7"; "4"] MANUAL EmptyString)
  /\ NoDup ["7"; "4"]
  /\ Forall (generatorId ENTITIES_DATA) ["7"; "4"].
Proof.
  assert (Hrun :
    run ENTITIES_DATA initialState [ClickToggle 5; ClickEntity 3; ClickToggle 3]
    = Some (mkAppState GESTOR TODOS (Some "4") ["7"; "4"] MANUAL EmptyString))
    by reflexivity.
  split; [exact Hrun |].
  destruct (session_keeps_route_well_formed ENTITIES_DATA _ _ Hrun)
    as (Hnd & Hgen & _).
  split; [exact Hnd | exact Hgen].
Defined.

Lemma handle_category (catalog : list Entity) (s s' : AppState) (ev : Event) :
  handle catalog s ev = Some s' ->
  selectedCategory s <> TODOS -> selectedCategory s' <> TODOS.
Proof.
  intros H Hcat.
  destruct ev as [r | c | k | k | | | k | m k | n k]; cbn [handle] in H;
    try (destruct r); handle_cases H; try exact Hcat; discriminate.
Qed.

Lemma run_category (catalog : list Entity) (evs : list Event) (s s' : AppState) :
  run catalog s evs = Some s' ->
  selectedCategory s <> TODOS -> selectedCategory s' <> TODOS.
Proof.
  revert s. induction evs as [| ev evs IH]; intros s H Hcat; cbn [run] in H.
  - now injection H as <-.
  - destruct (handle catalog s ev) as [s1 |] eqn:E; [| discriminate H].
    apply (IH s1 H). exact (handle_category _ _ _ _ E Hcat).
Qed.

Lemma visible_category (catalog : list Entity) (s : AppState) (e : Entity) :
  selectedCategory s <> TODOS -> In e (visible catalog s) -> wasteTypes e <> [].
Proof.
  intros Hcat Hin. destruct (selectedCategory s) as [| c] eqn:E; [congruence |].
  unfold visible, filteredEntities_on in Hin. rewrite E in Hin.
  apply filter_In in Hin. destruct Hin as [_ Hinc].
  apply includes_In in Hinc. intros Hnil. rewrite Hnil in Hinc. exact Hinc.
Qed.

(** X4. No control sets the filter back to TODOS: once a category has been
    chosen, whatever the user does next a category stays chosen, and an
    entity that lists no category is never on screen again. *)
Theorem filter_never_returns_to_all
    (catalog : list Entity) (evs : list Event) (s s' : AppState) :
  run catalog s evs = Some s' ->
  selectedCategory s <> TODOS ->
  selectedCategory s' <> TODOS
  /\ (forall e : Entity, In e (visible catalog s') -> wasteTypes e <> []).
Proof.
  intros H Hcat.
  pose proof (run_category catalog evs s s' H Hcat) as Hcat'.
  split; [exact Hcat' |].
  intros e. now apply visible_category.
Qed.

Lemma filter_never_returns_to_all_witness :
  run ENTITIES_DATA
      (mkAppState GESTOR (Category GRASAS) None [] MANUAL EmptyString)
      [ClickRole GENERADOR; ClickCategory ACEITES]
  = Some (mkAppState GENERADOR (Category ACEITES) None [] MANUAL EmptyString)
  /\ Category GRASAS <> TODOS
  /\ (forall e : Entity,
        In e (visible ENTITIES_DATA
                (mkAppState GENERADOR (Category ACEITES) None [] MANUAL EmptyString)) ->
        wasteTypes e <> []).
Proof.
  assert (Hrun :
    run ENTITIES_DATA
        (mkAppState GESTOR (Category GRASAS) None [] MANUAL EmptyString)
        [ClickRole GENERADOR; ClickCategory ACEITES]
    = Some (mkAppState GENERADOR (Category ACEITES) None [] MANUAL EmptyString))
    by reflexivity.
  assert (Hcat : Category GRASAS <> TODOS) by discriminate.
  split; [exact Hrun |].
  split; [exact Hcat |].
  exact (proj2 (filter_never_returns_to_all ENTITIES_DATA _ _ _ Hrun Hcat)).
Defined.

(** * Routes a session can build on the seeded catalog *)

Lemma toFixed_NaN_iff (x : number) (f : nat) :
  toFixed x f = NaNString <-> x = NaN.
Proof.
  destruct x as [r |]; cbn [toFixed].
  - destruct (Rle_dec (10 ^ 21) (Rabs r)); split; discriminate.
  - tauto.
Qed.

Lemma toFixed_Num_printed (r : R) (f : nat) :
  VString (toFixed (Num r) f) <> VString NaNString.
Proof.
  intros H. assert (H' : toFixed (Num r) f = NaNString) by congruence.
  apply toFixed_NaN_iff in H'. discriminate H'.
Qed.

Lemma sum_NaN_iff (l : list number) : sum l = NaN <-> In NaN l.
Proof.
  split; [| apply sum_NaN].
  induction l as [| x l IH]; cbn [sum fold_right In].
  - discriminate.
  - fold (sum l). destruct x as [r |]; [| now left].
    destruct (sum l) as [r' |]; [discriminate |].
    intros _. right. now apply IH.
Qed.

Lemma Forall_selectedObjs
    (P : Entity -> Prop) (catalog : list Entity) (route : list string) :
  (forall i e, In i route -> findById catalog i = Some e -> P e) ->
  Forall P (selectedObjs catalog route).
Proof.
  induction route as [| i route IH]; intros H.
  - constructor.
  - rewrite selectedObjs_cons.
    assert (Hrest : Forall P (selectedObjs catalog route)).
    { apply IH. intros j e Hj. apply H. now right. }
    destruct (findById catalog i) as [e |] eqn:E; [| exact Hrest].
    constructor; [| exact Hrest]. apply (H i); [now left | exact E].
Qed.

Lemma totalDistance_real (sites : list Entity) :
  Forall (fun e => exists a o, lat e = Num a /\ lng e = Num o) sites ->
  exists d : R, totalDistance sites = Num d.
Proof.
  unfold totalDistance.
  induction sites as [| a sites IH]; intros H.
  - now exists 0.
  - destruct sites as [| b sites].
    + now exists 0.
    + inversion H as [| ? ? (a1 & o1 & Ha1 & Ho1) Hrest]; subst.
      destruct (IH Hrest) as [d Hd].
      inversion Hrest as [| ? ? (a2 & o2 & Ha2 & Ho2) _]; subst.
      change (sum (legs (a :: b :: sites)))
        with (distanceBetween a b + sum (legs (b :: sites)))%js.
      rewrite Hd.
      unfold distanceBetween. rewrite Ha1, Ho1, Ha2, Ho2, getDistance_Num.
      eexists. reflexivity.
Qed.

Lemma grossAvoided_real (sites : list Entity) :
  Forall (fun e => exists r, avoidedOf e = Num r) sites ->
  exists r : R, grossAvoided sites = Num r.
Proof.
  unfold grossAvoided.
  induction sites as [| e sites IH]; intros H.
  - now exists 0.
  - inversion H as [| ? ? [r Hr] Hrest]; subst.
    destruct (IH Hrest) as [r' Hr'].
    change (sum (map avoidedOf (e :: sites)))
      with (avoidedOf e + sum (map avoidedOf sites))%js.
    rewrite Hr, Hr'. eexists. reflexivity.
Qed.

(** The generators of the seeded catalog. *)
Lemma seeded_generator (i : string) :
  generatorId ENTITIES_DATA i ->
  In i ["1"; "2"; "4"; "7"; "8"]
  /\ exists e : Entity,
       findById ENTITIES_DATA i = Some e
       /\ (exists a o, lat e = Num a /\ lng e = Num o)
       /\ (exists r, avoidedOf e = Num r).
Proof.
  intros (e & Hin & Hid & Hrole).
  unfold ENTITIES_DATA in Hin. cbn [In] in Hin.
  destruct Hin as [<- | [<- | [<- | [<- | [<- | [<- | [<- | []]]]]]]];
    cbn [role] in Hrole; try discriminate Hrole;
    cbn [id] in Hid; subst i;
    (split; [cbn [In]; tauto |]);
    (eexists; split; [reflexivity |]);
    (split; [do 2 eexists; split; reflexivity |]);
    eexists; reflexivity.
Qed.

(** X5. On the seeded catalog a route built by a session holds only the
    generators "1", "2", "4", "7" and "8", each at most once.  Every
    identifier resolves, so the calculator counts as many sites as
    identifiers, and none of the figures it returns is "NaN". *)
Theorem session_route_is_sound (evs : list Event) (s : AppState) :
  run ENTITIES_DATA initialState evs = Some s ->
  let route := routeEntities s in
  Forall (fun i => In i ["1"; "2"; "4"; "7"; "8"]) route
  /\ (length route <= 5)%nat
  /\ length (selectedObjs ENTITIES_DATA route) = length route
  /\ distance (routeMetrics route) <> VString NaNString
  /\ cost (routeMetrics route) <> VString NaNString
  /\ totalCO2 (routeMetrics route) <> VString NaNString
  /\ netESG (routeMetrics route) <> VString NaNString.
Proof.
  intros H route.
  destruct (run_wellFormed ENTITIES_DATA evs initialState s
              (initialState_wellFormed ENTITIES_DATA) H) as (Hnd & Hgen & _).
  fold route in Hnd, Hgen.
  assert (Hids : Forall (fun i => In i ["1"; "2"; "4"; "7"; "8"]) route).
  { eapply Forall_impl; [| exact Hgen].
    intros i Hi. exact (proj1 (seeded_generator i Hi)). }
  assert (Hknown : forall i, In i route -> known ENTITIES_DATA i = true).
  { intros i Hi. rewrite Forall_forall in Hids. specialize (Hids i Hi).
    cbn [In] in Hids.
    destruct Hids as [<- | [<- | [<- | [<- | [<- | []]]]]]; reflexivity. }
  split; [exact Hids |].
  split.
  { change 5%nat with (length ["1"; "2"; "4"; "7"; "8"]).
    apply NoDup_incl_length; [exact Hnd |].
    intros i Hi. rewrite Forall_forall in Hids. now apply Hids. }
  split; [now apply selectedObjs_length_known |].
  destruct (Nat.lt_ge_cases (length route) 2) as [Hshort | Hlong].
  - unfold routeMetrics. rewrite routeMetrics_on_short by exact Hshort.
    repeat split; discriminate.
  - assert (Hd : exists d, totalDistance (selectedObjs ENTITIES_DATA route) = Num d).
    { apply totalDistance_real, Forall_selectedObjs. intros i e Hi He.
      rewrite Forall_forall in Hgen.
      destruct (seeded_generator i (Hgen i Hi)) as (_ & e' & He' & Hc & _).
      rewrite He in He'. injection He' as <-. exact Hc. }
    assert (Hr : exists r, grossAvoided (selectedObjs ENTITIES_DATA route) = Num r).
    { apply grossAvoided_real, Forall_selectedObjs. intros i e Hi He.
      rewrite Forall_forall in Hgen.
      destruct (seeded_generator i (Hgen i Hi)) as (_ & e' & He' & _ & Hc).
      rewrite He in He'. injection He' as <-. exact Hc. }
    destruct Hd as [d Hd]. destruct Hr as [r Hr].
    unfold routeMetrics. rewrite routeMetrics_on_long by exact Hlong.
    cbn [distance cost totalCO2 netESG]. rewrite Hd, Hr.
    unfold TRUCK_EMISSION_PER_KM.
    destruct (2 <? length route)%nat; cbn [js_mul js_sub];
      repeat split; apply toFixed_Num_printed.
Qed.

Lemma session_route_is_sound_witness :
  run ENTITIES_DATA initialState [ClickToggle 5; ClickEntity 3; ClickToggle 3]
  = Some (mkAppState GESTOR TODOS (Some "4") ["7"; "4"] MANUAL EmptyString)
  /\ totalCO2 (routeMetrics ["7"; "4"]) <> VString NaNString.
Proof.
  assert (Hrun :
    run ENTITIES_DATA initialState [ClickToggle 5; ClickEntity 3; ClickToggle 3]
    = Some (mkAppState GESTOR TODOS (Some "4") ["7"; "4"] MANUAL EmptyString))
    by reflexivity.
  split; [exact Hrun |].
  destruct (session_route_is_sound _ _ Hrun) as (_ & _ & _ & _ & _ & HCO2 & _).
  exact HCO2.
Defined.

(** * The polyline and the distance *)

Lemma routePoints_sites (catalog : list Entity) (route : list string) :
  filterBoolean
    (map (fun i =>
            match findById catalog i with
            | Some e => Some (lat e, lng e)
            | None => None
            end)
         route)
  = map (fun e => (lat e, lng e)) (selectedObjs catalog route).
Proof.
  induction route as [| i route IH]; [reflexivity |].
  rewrite selectedObjs_cons. cbn [map filterBoolean].
  destruct (findById catalog i); cbn [map]; now rewrite IH.
Qed.

Lemma pathLengthFrom_sites (sites : list Entity) (acc : number) :
  pathLengthFrom acc (map (fun e => (lat e, lng e)) sites)
  = (acc + totalDistance sites)%js.
Proof.
  revert acc. induction sites as [| a sites IH]; intros acc.
  - cbn. now rewrite js_add_0_r.
  - destruct sites as [| b sites].
    + cbn. now rewrite js_add_0_r.
    + change (pathLengthFrom acc (map (fun e => (lat e, lng e)) (a :: b :: sites)))
        with (pathLengthFrom (acc + distanceBetween a b)%js
                (map (fun e => (lat e, lng e)) (b :: sites))).
      rewrite IH.
      change (totalDistance (a :: b :: sites))
        with (distanceBetween a b + totalDistance (b :: sites))%js.
      now rewrite js_add_assoc.
Qed.

(** X6. [drawRoute] draws a polyline exactly when the route calculator
    leaves its zeroed case, through the coordinates of the very sites the
    calculator resolves, in the same order; the distance returned is the
    length of that polyline printed with two digits. *)
Theorem polyline_matches_distance (catalog : list Entity) (route : list string) :
  ((length route < 2)%nat ->
   routePoints catalog route = None
   /\ distance (routeMetrics_on catalog route) = VNumber (Num 0))
  /\ ((2 <= length route)%nat ->
      exists points : list (number * number),
        routePoints catalog route = Some points
        /\ points = map (fun e => (lat e, lng e)) (selectedObjs catalog route)
        /\ distance (routeMetrics_on catalog route)
           = VString (toFixed (pathLength points) 2)).
Proof.
  split; intros H.
  - split.
    + unfold routePoints.
      assert (E : (1 <? length route)%nat = false) by (apply Nat.ltb_ge; lia).
      now rewrite E.
    + now rewrite routeMetrics_on_short.
  - eexists. split; [| split; [reflexivity |]].
    + unfold routePoints.
      assert (E : (1 <? length route)%nat = true) by (apply Nat.ltb_lt; lia).
      rewrite E. now rewrite routePoints_sites.
    + rewrite routeMetrics_on_long by exact H. cbn [distance].
      unfold pathLength. rewrite pathLengthFrom_sites. now rewrite js_add_0_l.
Qed.

Lemma polyline_matches_distance_witness :
  (2 <= length ["7"; "zzz"; "4"])%nat
  /\ routePoints ENTITIES_DATA ["7"; "zzz"; "4"]
     = Some [(Num 10.4050, Num (-75.5250)); (Num 10.4245, Num (-75.5520))].
Proof.
  assert (Hlen : (2 <= length ["7"; "zzz"; "4"])%nat) by (simpl; lia).
  split; [exact Hlen |].
  destruct (proj2 (polyline_matches_distance ENTITIES_DATA ["7"; "zzz"; "4"]) Hlen)
    as (points & Hpoints & Heq & _).
  rewrite Hpoints, Heq. reflexivity.
Defined.

(** * The summary panel *)

(** X7. The logistics cost shown in the panel, the returned string read
    back by [Number], is a whole number within one half of the unrounded
    cost [distance * 2500 * (1 - discount)]. *)
Theorem displayed_cost_within_half
    (catalog : list Entity) (route : list string) (d : R) :
  (2 <= length route)%nat ->
  totalDistance (selectedObjs catalog route) = Num d ->
  0 <= d ->
  d * 2500 < 10 ^ 21 ->
  let discount := if (2 <? length route)%nat then 0.10 else 0 in
  exists n : Z,
    Number (cost (routeMetrics_on catalog route)) = Num (IZR n)
    /\ Rabs (IZR n - d * 2500 * (1 - discount)) <= / 2.
Proof.
  intros Hlen Hd H0 Hbig discount.
  rewrite routeMetrics_on_long by exact Hlen. cbn [cost]. rewrite Hd.
  assert (Hraw :
    (Num d * Num 2500
     * (Num 1 - (if (2 <? length route)%nat then Num 0.10 else Num 0)))%js
    = Num (d * 2500 * (1 - discount))).
  { unfold discount. destruct (2 <? length route)%nat; reflexivity. }
  rewrite Hraw.
  assert (Hx : 0 <= d * 2500 * (1 - discount) < 10 ^ 21).
  { unfold discount. destruct (2 <? length route)%nat; lra. }
  rewrite toFixed_small by apply Hx.
  exists (Zfloor (d * 2500 * (1 - discount) * 10 ^ 0 + / 2)).
  pose proof (Zfloor_bound (d * 2500 * (1 - discount) * 10 ^ 0 + / 2)) as [Hlo Hhi].
  cbn [Number StringToNumber]. split.
  - f_equal. simpl. field.
  - simpl in Hlo, Hhi. apply Rabs_le. simpl. lra.
Qed.

Lemma displayed_cost_within_half_witness :
  exists n : Z,
    Number (cost (routeMetrics_on antipodes ["W"; "E"])) = Num (IZR n)
    /\ Rabs (IZR n - 6371 * Rtrigo1.PI * 2500 * (1 - 0)) <= / 2.
Proof.
  pose proof PI_bounds as [Hlo Hhi].
  apply (displayed_cost_within_half antipodes ["W"; "E"] (6371 * Rtrigo1.PI)).
  - simpl. lia.
  - exact antipodes_totalDistance.
  - lra.
  - lra.
Defined.

(** X8. The line "Balance Materiales" is red and tagged "(Servicios)" at
    once exactly when the balance is 0: there the colour is the one of a
    purchase and the text the one of a service.  This is what the panel
    shows for a route of a single identifier. *)
Theorem balance_line_zero_edge :
  (forall m : RouteMetrics,
      (lineColor (balanceLine m) = "#EF4444"
       /\ lineTag (balanceLine m) = "(Servicios)")
      <-> goodsBalance m = Num 0)
  /\ (forall (catalog : list Entity) (route : list string),
         (length route < 2)%nat ->
         balanceLine (routeMetrics_on catalog route)
         = mkBalanceLine "#EF4444" "+" (Num 0) "(Servicios)").
Proof.
  split.
  - intros m. unfold balanceLine.
    destruct (goodsBalance m) as [x |]; cbn [js_ge js_gt].
    + destruct (Rle_dec 0 x) as [Hle | Hnle], (Rlt_dec 0 x) as [Hlt | Hnlt];
        cbn [lineColor lineTag]; split; intros H.
      * destruct H as [_ H]. discriminate H.
      * injection H as H. lra.
      * f_equal. lra.
      * split; reflexivity.
      * lra.
      * lra.
      * destruct H as [H _]. discriminate H.
      * injection H as H. lra.
    + cbn [lineColor lineTag]. split; intros H; [| discriminate H].
      destruct H as [H _]. discriminate H.
  - intros catalog route H. rewrite routeMetrics_on_short by exact H.
    unfold balanceLine. cbn [goodsBalance js_ge js_gt Math_abs].
    destruct (Rle_dec 0 0); [| lra].
    destruct (Rlt_dec 0 0); [lra |].
    now rewrite Rabs_R0.
Qed.

Lemma balance_line_zero_edge_witness :
  (length ["7"] < 2)%nat
  /\ balanceLine (routeMetrics_on ENTITIES_DATA ["7"])
     = mkBalanceLine "#EF4444" "+" (Num 0) "(Servicios)".
Proof.
  assert (Hlen : (length ["7"] < 2)%nat) by (simpl; lia).
  split; [exact Hlen |].
  exact (proj2 balance_line_zero_edge ENTITIES_DATA ["7"] Hlen).
Defined.

(** * Unknown identifiers *)

Lemma findById_unknown (catalog : list Entity) (i : string) :
  known catalog i = false -> findById catalog i = None.
Proof.
  unfold known, findById.
  induction catalog as [| e catalog IH]; cbn [existsb find]; intros H.
  - reflexivity.
  - destruct (String.eqb (id e) i); [discriminate H | now apply IH].
Qed.

Lemma findById_id (catalog : list Entity) (i : string) (e : Entity) :
  findById catalog i = Some e -> In e catalog /\ id e = i.
Proof.
  intros H. unfold findById in H. apply find_some in H.
  destruct H as [Hin Heq]. split; [exact Hin |]. now apply String.eqb_eq.
Qed.

Lemma selectedObjs_known_only (catalog : list Entity) (route : list string) :
  selectedObjs catalog (filter (known catalog) route) = selectedObjs catalog route.
Proof.
  induction route as [| i route IH]; [reflexivity |].
  cbn [filter]. destruct (known catalog i) eqn:E.
  - rewrite !selectedObjs_cons. now rewrite IH.
  - rewrite selectedObjs_cons, (findById_unknown catalog i E). exact IH.
Qed.

Lemma selectedObjs_unknown_only (catalog : list Entity) (route : list string) :
  (forall i, In i route -> known catalog i = false) ->
  selectedObjs catalog route = [].
Proof.
  induction route as [| i route IH]; intros H; [reflexivity |].
  rewrite selectedObjs_cons, (findById_unknown catalog i) by (apply H; now left).
  apply IH. intros j Hj. apply H. now right.
Qed.

(** X9. When at least three of the selected identifiers are known, the
    unknown ones make no difference: the result is the one of the route
    with every unknown identifier taken out. *)
Theorem unknown_identifiers_harmless (catalog : list Entity) (route : list string) :
  (3 <= length (filter (known catalog) route))%nat ->
  routeMetrics_on catalog route
  = routeMetrics_on catalog (filter (known catalog) route).
Proof.
  intros H.
  assert (Hle : (length (filter (known catalog) route) <= length route)%nat)
    by apply filter_length_le.
  rewrite !routeMetrics_on_long by lia.
  rewrite selectedObjs_known_only.
  assert (H1 : (2 <? length route)%nat = true) by (apply Nat.ltb_lt; lia).
  assert (H2 : (2 <? length (filter (known catalog) route))%nat = true)
    by (apply Nat.ltb_lt; lia).
  now rewrite H1, H2.
Qed.

Lemma unknown_identifiers_harmless_witness :
  filter (known ENTITIES_DATA) ["1"; "zzz"; "2"; "4"] = ["1"; "2"; "4"]
  /\ routeMetrics_on ENTITIES_DATA ["1"; "zzz"; "2"; "4"]
     = routeMetrics_on ENTITIES_DATA ["1"; "2"; "4"].
Proof.
  split; [reflexivity |].
  apply (unknown_identifiers_harmless ENTITIES_DATA ["1"; "zzz"; "2"; "4"]).
  simpl. lia.
Defined.

(** X10. A route of two or more identifiers none of which is known is not
    the zeroed case: the calculator returns the strings "0.00", "0", "0.0"
    and "0.0", the balance 0 and no [savings] property, where the zeroed
    case returns the number 0 six times. *)
Theorem unknown_only_route (catalog : list Entity) (route : list string) :
  (2 <= length route)%nat ->
  (forall i, In i route -> known catalog i = false) ->
  routeMetrics_on catalog route
  = mkRouteMetrics (VString (FixedString false 0 2))
                   (VString (FixedString false 0 0))
                   VUndefined
                   (Num 0)
                   (VString (FixedString false 0 1))
                   (VString (FixedString false 0 1))
  /\ routeMetrics_on catalog route <> routeMetrics_on catalog [].
Proof.
  intros Hlen Hunknown.
  assert (Hval :
    routeMetrics_on catalog route
    = mkRouteMetrics (VString (FixedString false 0 2))
                     (VString (FixedString false 0 0))
                     VUndefined
                     (Num 0)
                     (VString (FixedString false 0 1))
                     (VString (FixedString false 0 1))).
  { rewrite routeMetrics_on_long by exact Hlen.
    rewrite (selectedObjs_unknown_only catalog route Hunknown).
    cbv [totalDistance legs grossAvoided materialBalance map sum fold_right
         TRUCK_EMISSION_PER_KM].
    destruct (2 <? length route)%nat; cbn [js_mul js_sub];
      f_equal; f_equal; apply toFixed_nonneg; simpl; lra. }
  split; [exact Hval |].
  rewrite Hval. discriminate.
Qed.

Lemma unknown_only_route_witness :
  routeMetrics_on ENTITIES_DATA ["zzz"; "6"]
  = mkRouteMetrics (VString (FixedString false 0 2))
                   (VString (FixedString false 0 0))
                   VUndefined
                   (Num 0)
                   (VString (FixedString false 0 1))
                   (VString (FixedString false 0 1)).
Proof.
  apply (unknown_only_route ENTITIES_DATA ["zzz"; "6"]).
  - simpl. lia.
  - intros i [<- | [<- | []]]; reflexivity.
Defined.

(** * Cards and totals *)

(** X11. For a route of at least two identifiers the avoided CO2 of the
    panel reads "NaN" exactly when the card of one of its sites does; and
    a card reads "NaN" exactly when its entity lists no category or has
    the quantity [NaN]. *)
Theorem NaN_on_panel_iff_on_card :
  (forall e : Entity,
      co2Impact e = NaNString
      <-> wasteTypes e = [] \/ availableQuantity e = NaN)
  /\ (forall (catalog : list Entity) (route : list string),
         (2 <= length route)%nat ->
         (totalCO2 (routeMetrics_on catalog route) = VString NaNString
          <-> exists e : Entity,
                In e (selectedObjs catalog route) /\ co2Impact e = NaNString)).
Proof.
  split.
  - intros e. unfold co2Impact. rewrite toFixed_NaN_iff.
    destruct (wasteTypes e) as [| c l]; cbn [hd_error].
    + cbn [CO2_FACTORS ToNumber]. rewrite js_mul_NaN_r. tauto.
    + destruct (availableQuantity e) as [q |].
      * destruct c; cbn [CO2_FACTORS ToNumber js_mul];
          split; intros H; try discriminate H;
          destruct H as [H | H]; discriminate H.
      * cbn [js_mul]. split; [intros _; now right | reflexivity].
  - intros catalog route Hlen.
    rewrite routeMetrics_on_long by exact Hlen. cbn [totalCO2].
    split.
    + intros H.
      assert (H' : toFixed (grossAvoided (selectedObjs catalog route)) 1 = NaNString)
        by congruence.
      apply toFixed_NaN_iff, sum_NaN_iff, in_map_iff in H'.
      destruct H' as (e & He & Hin). exists e. split; [exact Hin |].
      apply toFixed_NaN_iff. exact He.
    + intros (e & Hin & He). f_equal.
      apply toFixed_NaN_iff, sum_NaN_iff, in_map_iff.
      exists e. split; [| exact Hin].
      now apply toFixed_NaN_iff in He.
Qed.

Lemma NaN_on_panel_iff_on_card_witness :
  (2 <= length ["1"; "5"])%nat
  /\ exists e : Entity,
       In e (selectedObjs ENTITIES_DATA ["1"; "5"]) /\ co2Impact e = NaNString.
Proof.
  assert (Hlen : (2 <= length ["1"; "5"])%nat) by (simpl; lia).
  split; [exact Hlen |].
  apply (proj2 NaN_on_panel_iff_on_card ENTITIES_DATA ["1"; "5"] Hlen).
  unfold routeMetrics_on. cbn [length Nat.ltb Nat.leb].
  resolve_route.
  cbn [fold_left accumulate wasteTypes hd_error CO2_FACTORS ToNumber
       getEconomicModel type EconomicType_eqb availableQuantity pricePerUnit
       js_add js_mul js_sub totalCO2 toFixed].
  reflexivity.
Defined.

(** * Toggling and the sites of the route *)

Lemma selectedObjs_app (catalog : list Entity) (r1 r2 : list string) :
  selectedObjs catalog (r1 ++ r2)
  = selectedObjs catalog r1 ++ selectedObjs catalog r2.
Proof.
  induction r1 as [| i r1 IH]; [reflexivity |].
  cbn [app]. rewrite !selectedObjs_cons.
  destruct (findById catalog i); cbn [app]; now rewrite IH.
Qed.

Lemma selectedObjs_without (catalog : list Entity) (route : list string) (i : string) :
  selectedObjs catalog (filter (fun x => negb (String.eqb x i)) route)
  = filter (fun e => negb (String.eqb (id e) i)) (selectedObjs catalog route).
Proof.
  induction route as [| j route IH]; [reflexivity |].
  cbn [filter]. rewrite selectedObjs_cons.
  destruct (findById catalog j) as [e |] eqn:E.
  - apply findById_id in E as Heq. destruct Heq as [_ Heq].
    cbn [filter]. rewrite Heq.
    destruct (String.eqb j i); cbn [negb].
    + exact IH.
    + rewrite selectedObjs_cons, E. now rewrite IH.
  - destruct (String.eqb j i); cbn [negb]; [exact IH |].
    rewrite selectedObjs_cons, E. exact IH.
Qed.

(** X12. What a toggle does to the sites of the route: taking an
    identifier out removes the sites that carry it and keeps the others
    in order; putting one in appends its site, or nothing when the
    catalog does not know it. *)
Theorem toggle_sites (catalog : list Entity) (route : list string) (i : string) :
  (In i route ->
   selectedObjs catalog (toggleRoutePoint route i)
   = filter (fun e => negb (String.eqb (id e) i)) (selectedObjs catalog route))
  /\ (~ In i route ->
      selectedObjs catalog (toggleRoutePoint route i)
      = selectedObjs catalog route
        ++ match findById catalog i with
           | Some e => [e]
           | None => []
           end).
Proof.
  split; intros H; unfold toggleRoutePoint.
  - apply includesId_In in H. rewrite H. apply selectedObjs_without.
  - apply includesId_false in H. rewrite H.
    rewrite selectedObjs_app. reflexivity.
Qed.

Lemma toggle_sites_witness :
  In "7" ["7"; "4"]
  /\ map id (selectedObjs ENTITIES_DATA (toggleRoutePoint ["7"; "4"] "7")) = ["4"]
  /\ ~ In "8" ["7"; "4"]
  /\ map id (selectedObjs ENTITIES_DATA (toggleRoutePoint ["7"; "4"] "8"))
     = ["7"; "4"; "8"].
Proof.
  assert (Hin : In "7" ["7"; "4"]) by now left.
  assert (Habs : ~ In "8" ["7"; "4"]).
  { intros [H | [H | []]]; discriminate H. }
  split; [exact Hin |].
  split.
  { rewrite (proj1 (toggle_sites ENTITIES_DATA ["7"; "4"] "7") Hin). reflexivity. }
  split; [exact Habs |].
  rewrite (proj2 (toggle_sites ENTITIES_DATA ["7"; "4"] "8") Habs). reflexivity.
Defined.

(** X13. Only a GESTOR changes the route, and only by a toggle on a
    generator on screen or by clearing a non-empty route; changing role or
    category, selecting a card and the other controls leave it alone. *)
Theorem route_changes_only_by_gestor
    (catalog : list Entity) (s s' : AppState) (ev : Event) :
  handle catalog s ev = Some s' ->
  routeEntities s' <> routeEntities s ->
  currentUserRole s = GESTOR
  /\ currentUserRole s' = GESTOR
  /\ ((ev = ClickClear /\ routeEntities s' = [])
      \/ exists (k : nat) (e : Entity),
           ev = ClickToggle k
           /\ nth_error (visible catalog s) k = Some e
           /\ role e = GENERADOR
           /\ routeEntities s' = toggleRoutePoint (routeEntities s) (id e)).
Proof.
  intros H Hchange.
  destruct ev as [r | c | k | k | | | k | m k | n k]; cbn [handle] in H;
    try (destruct r); handle_cases H;
    try (exfalso; apply Hchange; reflexivity).
  - match goal with
    | Hb : (_ && _)%bool = true |- _ =>
        apply andb_prop in Hb; destruct Hb as [Hg Hr]
    end.
    assert (Hrole : currentUserRole s = GESTOR)
      by (destruct (currentUserRole s); try discriminate Hg; reflexivity).
    split; [exact Hrole |]. split; [exact Hrole |].
    right. do 2 eexists. split; [reflexivity |]. split; [eassumption |].
    split; [| reflexivity].
    match goal with
    | |- role ?e = _ => destruct (role e); try discriminate Hr; reflexivity
    end.
  - match goal with
    | Hb : (_ && _)%bool = true |- _ =>
        apply andb_prop in Hb; destruct Hb as [Hg _]
    end.
    assert (Hrole : currentUserRole s = GESTOR)
      by (destruct (currentUserRole s); try discriminate Hg; reflexivity).
    split; [exact Hrole |]. split; [exact Hrole |].
    left. split; reflexivity.
Qed.

Lemma route_changes_only_by_gestor_witness :
  handle ENTITIES_DATA initialState (ClickToggle 5)
  = Some (mkAppState GESTOR TODOS None ["7"] MANUAL EmptyString)
  /\ currentUserRole initialState = GESTOR.
Proof.
  assert (Hstep :
    handle ENTITIES_DATA initialState (ClickToggle 5)
    = Some (mkAppState GESTOR TODOS None ["7"] MANUAL EmptyString))
    by reflexivity.
  split; [exact Hstep |].
  refine (proj1 (route_changes_only_by_gestor ENTITIES_DATA _ _ _ Hstep _)).
  cbn [routeEntities initialState]. discriminate.
Defined.

(** * Every visiting order can be selected *)

Lemma run_app (catalog : list Entity) (evs1 evs2 : list Event) (s s1 : AppState) :
  run catalog s evs1 = Some s1 ->
  run catalog s (evs1 ++ evs2) = run catalog s1 evs2.
Proof.
  revert s. induction evs1 as [| ev evs1 IH]; intros s H; cbn [run app] in *.
  - now injection H as <-.
  - destruct (handle catalog s ev) as [s' |]; [now apply IH | discriminate H].
Qed.

Lemma toggle_card (route : list string) (i : string) :
  In i ["1"; "2"; "4"; "7"; "8"] ->
  ~ In i route ->
  handle ENTITIES_DATA (mkAppState GESTOR TODOS None route MANUAL EmptyString)
         (ClickToggle (cardOf i))
  = Some (mkAppState GESTOR TODOS None (route ++ [i]) MANUAL EmptyString).
Proof.
  intros Hi Habs. apply includesId_false in Habs.
  cbn [In] in Hi.
  destruct Hi as [<- | [<- | [<- | [<- | [<- | []]]]]];
    cbn; unfold toggleRoutePoint; cbn [id]; now rewrite Habs.
Qed.

(** X14. On the seeded catalog every list of generators without
    repetition, in any order, is the route of some session: toggling the
    cards in that order builds it. *)
Theorem every_order_is_selectable (route : list string) :
  NoDup route ->
  Forall (fun i => In i ["1"; "2"; "4"; "7"; "8"]) route ->
  run ENTITIES_DATA initialState (map (fun i => ClickToggle (cardOf i)) route)
  = Some (mkAppState GESTOR TODOS None route MANUAL EmptyString).
Proof.
  induction route as [| i route IH] using rev_ind; intros Hnd Hall.
  - reflexivity.
  - apply NoDup_remove in Hnd. rewrite app_nil_r in Hnd. destruct Hnd as [Hnd Habs].
    apply Forall_app in Hall. destruct Hall as [Hall Hi].
    inversion Hi as [| ? ? Hi' _]; subst.
    rewrite map_app, (run_app _ _ _ _ _ (IH Hnd Hall)).
    cbn [map run]. now rewrite toggle_card.
Qed.

Lemma every_order_is_selectable_witness :
  run ENTITIES_DATA initialState
      [ClickToggle 6; ClickToggle 0; ClickToggle 5]
  = Some (mkAppState GESTOR TODOS None ["8"; "1"; "7"] MANUAL EmptyString).
Proof.
  apply (every_order_is_selectable ["8"; "1"; "7"]).
  - repeat constructor; cbn [In]; intros H;
      repeat (destruct H as [H | H]; [discriminate H |]); exact H.
  - repeat constructor; cbn [In]; tauto.
Defined.

(** * Enclosures of the elementary functions *)

Lemma PI_tight : 3.14159 < Rtrigo1.PI < 3.1416.
Proof.
  pose proof (PI_2_3_7_ineq 3) as [Hlo Hhi].
  unfold sum_f_R0, tg_alt, PI_2_3_7_tg, Ratan_seq in Hlo, Hhi.
  simpl in Hlo, Hhi.
  split; lra.
Qed.

Lemma INR_fact (n : nat) (z : Z) : Z.of_nat (fact n) = z -> INR (fact n) = IZR z.
Proof. intros <-. apply INR_IZR_INZ. Qed.

Lemma sin_lb_expand (a : R) :
  sin_lb a = a - a ^ 3 / 6 + a ^ 5 / 120 - a ^ 7 / 5040.
Proof.
  unfold sin_lb, sin_approx, sum_f_R0, sin_term.
  change (2 * 0 + 1)%nat with 1%nat. change (2 * 1 + 1)%nat with 3%nat.
  change (2 * 2 + 1)%nat with 5%nat. change (2 * 3 + 1)%nat with 7%nat.
  rewrite (INR_fact 1 1), (INR_fact 3 6), (INR_fact 5 120), (INR_fact 7 5040)
    by reflexivity.
  field.
Qed.

Lemma cos_lb_expand (a : R) :
  cos_lb a = 1 - a ^ 2 / 2 + a ^ 4 / 24 - a ^ 6 / 720.
Proof.
  unfold cos_lb, cos_approx, sum_f_R0, cos_term.
  change (2 * 0)%nat with 0%nat. change (2 * 1)%nat with 2%nat.
  change (2 * 2)%nat with 4%nat. change (2 * 3)%nat with 6%nat.
  rewrite (INR_fact 0 1), (INR_fact 2 2), (INR_fact 4 24), (INR_fact 6 720)
    by reflexivity.
  field.
Qed.

Lemma cos_ub_expand (a : R) :
  cos_ub a = 1 - a ^ 2 / 2 + a ^ 4 / 24 - a ^ 6 / 720 + a ^ 8 / 40320.
Proof.
  unfold cos_ub, cos_approx, sum_f_R0, cos_term.
  change (2 * 0)%nat with 0%nat. change (2 * 1)%nat with 2%nat.
  change (2 * 2)%nat with 4%nat. change (2 * 3)%nat with 6%nat.
  change (2 * 4)%nat with 8%nat.
  rewrite (INR_fact 0 1), (INR_fact 2 2), (INR_fact 4 24), (INR_fact 6 720),
    (INR_fact 8 40320) by reflexivity.
  field.
Qed.

Lemma sin_lower (a : R) : 0 <= a <= 2 -> a - a ^ 3 / 6 <= sin a.
Proof.
  intros [H0 H2]. pose proof PI_tight as [Hp _].
  destruct (SIN a H0 ltac:(lra)) as [Hlb _].
  rewrite sin_lb_expand in Hlb.
  assert (0 <= a ^ 5 * (42 - a ^ 2)).
  { apply Rmult_le_pos; [apply pow_le; exact H0 |]. nra. }
  nra.
Qed.

Lemma sin_upper (a : R) : 0 <= a -> sin a <= a.
Proof.
  intros [H | <-]; [left; now apply sin_lt_x | rewrite sin_0; lra].
Qed.

Lemma cos_lower (a : R) : 0 <= a <= 3 / 2 -> 1 - a ^ 2 / 2 <= cos a.
Proof.
  intros [H0 H2]. pose proof PI_tight as [Hp _].
  destruct (COS a ltac:(lra) ltac:(lra)) as [Hlb _].
  rewrite cos_lb_expand in Hlb.
  assert (0 <= a ^ 4 * (30 - a ^ 2)).
  { apply Rmult_le_pos; [apply pow_le; exact H0 |]. nra. }
  nra.
Qed.

Lemma cos_upper (a : R) : 0 <= a <= 3 / 2 -> cos a <= 1 - a ^ 2 / 2 + a ^ 4 / 24.
Proof.
  intros [H0 H2]. pose proof PI_tight as [Hp _].
  destruct (COS a ltac:(lra) ltac:(lra)) as [_ Hub].
  rewrite cos_ub_expand in Hub.
  assert (0 <= a ^ 6 * (56 - a ^ 2)).
  { apply Rmult_le_pos; [apply pow_le; exact H0 |]. nra. }
  nra.
Qed.

Lemma atan_upper (t : R) : 0 <= t -> atan t <= t.
Proof.
  intros Ht.
  destruct Ht as [Ht | <-]; [| rewrite atan_0; lra].
  pose proof (atan_bound t) as [Hb1 Hb2].
  pose proof PI_tight as [Hp1 Hp2].
  assert (H0 : 0 < atan t) by (rewrite <- atan_0; now apply atan_increasing).
  set (x := atan t) in *.
  assert (Hx : x <= 2) by lra.
  assert (Hcos : 0 < cos x) by (apply cos_gt_0; lra).
  assert (Htan : tan x = t) by apply tan_atan.
  unfold tan in Htan.
  assert (Hs : sin x = t * cos x).
  { rewrite <- Htan. field. lra. }
  (* x * cos x <= sin x *)
  pose proof (sin_lower x ltac:(lra)) as Hsl.
  destruct (COS x ltac:(lra) ltac:(lra)) as [_ Hub].
  rewrite cos_ub_expand in Hub.
  assert (Hc : cos x <= 1 - x ^ 2 / 2 + x ^ 4 / 24).
  { assert (0 <= x ^ 6 * (56 - x ^ 2)).
    { apply Rmult_le_pos; [apply pow_le; lra |]. nra. }
    nra. }
  assert (Hxc : x * cos x <= sin x).
  { assert (x * cos x <= x * (1 - x ^ 2 / 2 + x ^ 4 / 24))
      by (apply Rmult_le_compat_l; lra).
    assert (0 <= x ^ 3 * (8 - x ^ 2)).
    { apply Rmult_le_pos; [apply pow_le; lra |]. nra. }
    nra. }
  rewrite Hs in Hxc.
  apply Rmult_le_reg_r with (cos x); [exact Hcos | exact Hxc].
Qed.

Lemma atan_lower (t : R) : 0 <= t -> t * (1 - t ^ 2 / 2) <= atan t.
Proof.
  intros Ht.
  pose proof (atan_upper t Ht) as Hup.
  destruct Ht as [Ht | <-]; [| rewrite atan_0; lra].
  pose proof (atan_bound t) as [Hb1 Hb2].
  pose proof PI_tight as [Hp1 Hp2].
  assert (H0 : 0 < atan t) by (rewrite <- atan_0; now apply atan_increasing).
  set (x := atan t) in *.
  assert (Hcos : 0 < cos x) by (apply cos_gt_0; lra).
  assert (Htan : tan x = t) by apply tan_atan.
  unfold tan in Htan.
  assert (Hs : sin x = t * cos x).
  { rewrite <- Htan. field. lra. }
  pose proof (sin_upper x ltac:(lra)) as Hsu.
  destruct (Rle_lt_dec (t ^ 2) 2) as [Hsmall | Hbig].
  - assert (Hcl : 1 - x ^ 2 / 2 <= cos x).
    { destruct (Rle_lt_dec x (3 / 2)) as [Hx | Hx].
      - apply cos_lower. lra.
      - assert (1 - x ^ 2 / 2 <= 0) by nra. lra. }
    assert (1 - t ^ 2 / 2 <= 1 - x ^ 2 / 2) by nra.
    assert (t * (1 - t ^ 2 / 2) <= t * cos x).
    { apply Rmult_le_compat_l; lra. }
    lra.
  - assert (t * (1 - t ^ 2 / 2) <= 0) by nra. lra.
Qed.

Lemma sin_enclosure (x lo hi : R) :
  0 <= lo -> lo <= x -> x <= hi -> hi <= 1 ->
  lo - hi ^ 3 / 6 <= sin x <= hi.
Proof.
  intros H0 H1 H2 H3. split.
  - pose proof (sin_lower x ltac:(lra)) as H.
    assert (x ^ 3 <= hi ^ 3) by (apply pow_incr; lra).
    lra.
  - pose proof (sin_upper x ltac:(lra)). lra.
Qed.

Lemma cos_enclosure (x lo hi : R) :
  0 <= lo -> lo <= x -> x <= hi -> hi <= 3 / 2 ->
  1 - hi ^ 2 / 2 <= cos x <= 1 - lo ^ 2 / 2 + hi ^ 4 / 24.
Proof.
  intros H0 H1 H2 H3.
  pose proof (cos_lower x ltac:(lra)) as Hl.
  pose proof (cos_upper x ltac:(lra)) as Hu.
  assert (x ^ 2 <= hi ^ 2) by (apply pow_incr; lra).
  assert (lo ^ 2 <= x ^ 2) by (apply pow_incr; lra).
  assert (x ^ 4 <= hi ^ 4) by (apply pow_incr; lra).
  lra.
Qed.

Lemma mul_enclosure (u v l1 h1 l2 h2 : R) :
  0 <= l1 -> l1 <= u -> u <= h1 -> 0 <= l2 -> l2 <= v -> v <= h2 ->
  l1 * l2 <= u * v <= h1 * h2.
Proof.
  intros. split.
  - apply Rmult_le_compat; lra.
  - apply Rmult_le_compat; lra.
Qed.

(** The distance between two points with real coordinates, enclosed from
    an enclosure of the haversine. *)
Lemma distance_enclosure (lat1 lon1 lat2 lon2 a_lo a_hi L U : R) :
  a_lo <= haversine lat1 lon1 lat2 lon2 <= a_hi ->
  a_hi <= / 2 ->
  0 <= L -> L * L <= a_lo ->
  0 <= U -> U <= 1 -> a_hi <= U * U * (1 - a_hi) ->
  exists d : R,
    getDistanceFromLatLonInKm (Num lat1) (Num lon1) (Num lat2) (Num lon2) = Num d
    /\ 12742 * (L * (1 - U ^ 2 / 2)) <= d <= 12742 * U.
Proof.
  intros [Hlo Hhi] Hhalf HL HLa HU HU1 HUa.
  rewrite getDistance_Num.
  set (a := haversine lat1 lon1 lat2 lon2) in *.
  eexists. split; [reflexivity |].
  assert (Ha0 : 0 <= a) by nra.
  assert (Hs1 : 0 < sqrt (1 - a)) by (apply sqrt_lt_R0; lra).
  assert (Hs0 : 0 <= sqrt a) by apply sqrt_pos.
  unfold Math.atan2_R. destruct (Rlt_dec 0 (sqrt (1 - a))) as [_ | Hn]; [| contradiction].
  set (t := sqrt a / sqrt (1 - a)).
  assert (Ht0 : 0 <= t).
  { unfold t. apply Rmult_le_pos; [exact Hs0 |]. left. now apply Rinv_0_lt_compat. }
  assert (Htt : t * t = a / (1 - a)).
  { unfold t.
    replace (sqrt a / sqrt (1 - a) * (sqrt a / sqrt (1 - a)))
      with ((sqrt a * sqrt a) / (sqrt (1 - a) * sqrt (1 - a))) by (field; lra).
    rewrite !sqrt_sqrt by lra. reflexivity. }
  assert (Hq : a <= a / (1 - a) <= U * U).
  { split.
    - apply Rmult_le_reg_r with (1 - a); [lra |].
      replace (a / (1 - a) * (1 - a)) with a by (field; lra). nra.
    - apply Rmult_le_reg_r with (1 - a); [lra |].
      replace (a / (1 - a) * (1 - a)) with a by (field; lra). nra. }
  assert (HtU : t <= U) by nra.
  assert (HLt : L <= t) by nra.
  pose proof (atan_upper t Ht0) as Hup.
  pose proof (atan_lower t Ht0) as Hlw.
  assert (L * (1 - U ^ 2 / 2) <= t * (1 - t ^ 2 / 2)).
  { assert (t ^ 2 <= U ^ 2) by (apply pow_incr; lra).
    assert (0 <= 1 - U ^ 2 / 2) by nra.
    apply Rmult_le_compat; nra. }
  lra.
Qed.

Lemma distance_1_4 :
  exists d : R,
    getDistanceFromLatLonInKm (Num 10.4230) (Num (-75.5490))
                              (Num 10.4245) (Num (-75.5520)) = Num d
    /\ 0.36801 < d < 0.36806.
Proof.
  pose proof PI_tight as [Hp1 Hp2].
  assert (Ha : 8.3422e-10 <= haversine 10.4230 (-75.5490) 10.4245 (-75.5520)
               <= 8.3432e-10).
  { unfold haversine, degree.
    replace ((10.4245 - 10.4230) * (Rtrigo1.PI / 180) / 2) with (Rtrigo1.PI / 240000) by lra.
    replace ((-75.5520 - -75.5490) * (Rtrigo1.PI / 180) / 2) with (- (Rtrigo1.PI / 120000)) by lra.
    rewrite sin_neg.
    pose proof (sin_enclosure (Rtrigo1.PI / 240000) (3.14159 / 240000) (3.1416 / 240000)
                  ltac:(lra) ltac:(lra) ltac:(lra) ltac:(lra)) as [Hx1 Hx2].
    pose proof (sin_enclosure (Rtrigo1.PI / 120000) (3.14159 / 120000) (3.1416 / 120000)
                  ltac:(lra) ltac:(lra) ltac:(lra) ltac:(lra)) as [Hy1 Hy2].
    pose proof (cos_enclosure (10.4230 * (Rtrigo1.PI / 180))
                  (10.4230 * 3.14159 / 180) (10.4230 * 3.1416 / 180)
                  ltac:(lra) ltac:(lra) ltac:(lra) ltac:(lra)) as [Hc1 Hc2].
    pose proof (cos_enclosure (10.4245 * (Rtrigo1.PI / 180))
                  (10.4245 * 3.14159 / 180) (10.4245 * 3.1416 / 180)
                  ltac:(lra) ltac:(lra) ltac:(lra) ltac:(lra)) as [Hd1 Hd2].
    set (sx := sin (Rtrigo1.PI / 240000)) in *.
    set (sy := sin (Rtrigo1.PI / 120000)) in *.
    set (c1 := cos (10.4230 * (Rtrigo1.PI / 180))) in *.
    set (c2 := cos (10.4245 * (Rtrigo1.PI / 180))) in *.
    assert (Hsx : 1.3089958e-5 <= sx <= 1.30900001e-5) by lra.
    assert (Hsy : 2.6179916e-5 <= sy <= 2.61800001e-5) by lra.
    assert (Hc1' : 0.98345 <= c1 <= 0.98350) by lra.
    assert (Hc2' : 0.98344 <= c2 <= 0.98350) by lra.
    pose proof (mul_enclosure sx sx 1.3089958e-5 1.30900001e-5 1.3089958e-5 1.30900001e-5
                  ltac:(lra) (proj1 Hsx) (proj2 Hsx)
                  ltac:(lra) (proj1 Hsx) (proj2 Hsx)) as Hxx.
    pose proof (mul_enclosure sy sy 2.6179916e-5 2.61800001e-5 2.6179916e-5 2.61800001e-5
                  ltac:(lra) (proj1 Hsy) (proj2 Hsy)
                  ltac:(lra) (proj1 Hsy) (proj2 Hsy)) as Hyy.
    pose proof (mul_enclosure c1 c2 0.98345 0.98350 0.98344 0.98350
                  ltac:(lra) (proj1 Hc1') (proj2 Hc1')
                  ltac:(lra) (proj1 Hc2') (proj2 Hc2')) as Hcc.
    replace (sx * sx + c1 * c2 * - sy * - sy) with (sx * sx + c1 * c2 * (sy * sy)) by ring.
    pose proof (mul_enclosure (c1 * c2) (sy * sy)
                  (0.98345 * 0.98344) (0.98350 * 0.98350)
                  (2.6179916e-5 * 2.6179916e-5) (2.61800001e-5 * 2.61800001e-5)
                  ltac:(lra) (proj1 Hcc) (proj2 Hcc)
                  ltac:(lra) (proj1 Hyy) (proj2 Hyy)) as Hccyy.
    lra. }
  destruct (distance_enclosure 10.4230 (-75.5490) 10.4245 (-75.5520)
              8.3422e-10 8.3432e-10 2.8882e-5 2.8885e-5 Ha
              ltac:(lra) ltac:(lra) ltac:(lra) ltac:(lra) ltac:(lra) ltac:(lra))
    as (d & Hd & Hb).
  exists d. split; [exact Hd |]. lra.
Qed.

(** * The route calculator on the routes of a session *)

Lemma Rabs_within (a b : R) : Rabs a <= b -> - b <= a <= b.
Proof. unfold Rabs. destruct (Rcase_abs a); lra. Qed.

Lemma sin_sq_le (x : R) : sin x * sin x <= x * x.
Proof.
  assert (Hpos : forall u, 0 <= u -> - u <= sin u <= u).
  { intros u Hu. split; [| now apply sin_upper].
    destruct (Rle_lt_dec u 1) as [H1 | H1].
    - pose proof PI_tight as [Hp _].
      pose proof (sin_ge_0 u Hu ltac:(lra)). lra.
    - pose proof (SIN_bound u) as [Hb _]. lra. }
  destruct (Rle_lt_dec 0 x) as [H | H].
  - destruct (Hpos x H). nra.
  - destruct (Hpos (- x) ltac:(lra)) as [H1 H2]. rewrite sin_neg in H1, H2. nra.
Qed.

Lemma haversine_small (lat1 lon1 lat2 lon2 h : R) :
  Rabs ((lat2 - lat1) * degree / 2) <= h ->
  Rabs ((lon2 - lon1) * degree / 2) <= h ->
  haversine lat1 lon1 lat2 lon2 <= 2 * (h * h).
Proof.
  intros Hx Hy. unfold haversine.
  set (x := (lat2 - lat1) * degree / 2) in *.
  set (y := (lon2 - lon1) * degree / 2) in *.
  pose proof (sin_sq_le x) as Hsx. pose proof (sin_sq_le y) as Hsy.
  pose proof (COS_bound (lat1 * degree)) as [Hc1 Hc1'].
  pose proof (COS_bound (lat2 * degree)) as [Hc2 Hc2'].
  assert (Hxx : x * x <= h * h).
  { apply Rabs_within in Hx. nra. }
  assert (Hyy : y * y <= h * h).
  { apply Rabs_within in Hy. nra. }
  assert (H0 : 0 <= sin y * sin y) by nra.
  assert (Hcc : cos (lat1 * degree) * cos (lat2 * degree) <= 1) by nra.
  replace (cos (lat1 * degree) * cos (lat2 * degree) * sin y * sin y)
    with (cos (lat1 * degree) * cos (lat2 * degree) * (sin y * sin y)) by ring.
  assert (cos (lat1 * degree) * cos (lat2 * degree) * (sin y * sin y)
          <= 1 * (sin y * sin y)) by (apply Rmult_le_compat_r; lra).
  lra.
Qed.

(** Two points at most three hundredths of a degree apart in latitude and
    in longitude are at most five kilometres apart. *)
Lemma leg_short (lat1 lon1 lat2 lon2 : R) :
  Rabs (lat2 - lat1) <= 0.03 -> Rabs (lon2 - lon1) <= 0.03 ->
  exists d : R,
    getDistanceFromLatLonInKm (Num lat1) (Num lon1) (Num lat2) (Num lon2) = Num d
    /\ 0 <= d <= 5.
Proof.
  intros Hlat Hlon.
  pose proof PI_tight as [Hp1 Hp2].
  assert (Hk : 0 < degree / 2 <= 8.73e-3) by (unfold degree; lra).
  assert (Hscale : forall u, Rabs u <= 0.03 -> Rabs (u * degree / 2) <= 2.619e-4).
  { intros u Hu. apply Rabs_within in Hu. apply Rabs_le.
    replace (u * degree / 2) with (u * (degree / 2)) by field. nra. }
  pose proof (haversine_small lat1 lon1 lat2 lon2 2.619e-4
                (Hscale _ Hlat) (Hscale _ Hlon)) as Hhi.
  pose proof (haversine_bounds lat1 lon1 lat2 lon2) as [Hlo _].
  destruct (distance_enclosure lat1 lon1 lat2 lon2 0 1.372e-7 0 3.71e-4
              ltac:(lra) ltac:(lra) ltac:(lra) ltac:(lra) ltac:(lra) ltac:(lra)
              ltac:(lra)) as (d & Hd & Hb).
  exists d. split; [exact Hd |]. lra.
Qed.

Lemma accumulate_ordered (sites : list Entity) (g a : number) :
  fold_left accumulate sites (g, a) = (balanceFrom g sites, avoidedFrom a sites).
Proof.
  revert g a. induction sites as [| e sites IH]; intros g a; [reflexivity |].
  cbn [fold_left balanceFrom avoidedFrom]. unfold accumulate at 2.
  fold (primaryCategory e). fold (regime e).
  fold (emissionFactor (primaryCategory e)). fold (avoidedOf e).
  destruct (regime e); cbn [EconomicType_eqb]; apply IH.
Qed.

Lemma pathLength_loop (objs : list Entity) :
  forLoop (length objs - 1) 0 (distanceStep objs) (Num 0)
  = pathLength (map coordinates objs).
Proof.
  rewrite distance_loop. unfold pathLength, coordinates.
  rewrite pathLengthFrom_sites. now rewrite js_add_0_l.
Qed.

(** The result for a route of at least two identifiers, each figure
    accumulated in the order of the source. *)
Lemma routeMetrics_on_ordered (catalog : list Entity) (route : list string) :
  (2 <= length route)%nat ->
  let sites := selectedObjs catalog route in
  let totalDist := pathLength (map coordinates sites) in
  let avoided := avoidedFrom (Num 0) sites in
  let discount := if (2 <? length route)%nat then Num 0.10 else Num 0 in
  routeMetrics_on catalog route
  = mkRouteMetrics
      (VString (toFixed totalDist 2))
      (VString (toFixed (totalDist * Num 2500 * (Num 1 - discount))%js 0))
      VUndefined
      (balanceFrom (Num 0) sites)
      (VString (toFixed avoided 1))
      (VString (toFixed (avoided - totalDist * TRUCK_EMISSION_PER_KM)%js 1)).
Proof.
  intros H sites totalDist avoided discount. unfold routeMetrics_on.
  assert (Hguard : (length route <? 2)%nat = false) by (apply Nat.ltb_ge; lia).
  rewrite Hguard. fold sites.
  rewrite pathLength_loop, accumulate_ordered. reflexivity.
Qed.

(** ** Reading a printed number back *)

Lemma pow10_pos (f : nat) : 0 < 10 ^ f.
Proof. apply pow_lt. lra. Qed.

Lemma toFixed_readback (r : R) (f : nat) :
  Rabs r < 10 ^ 21 ->
  exists (negative : bool) (n : Z),
    toFixed (Num r) f = FixedString negative n f
    /\ (negative = true <-> r < 0)
    /\ (0 <= n)%Z
    /\ Rabs ((if negative then - IZR n else IZR n) / 10 ^ f - r) <= / 2 / 10 ^ f.
Proof.
  intros Hbig. pose proof (pow10_pos f) as Hp.
  unfold toFixed.
  destruct (Rle_dec (10 ^ 21) (Rabs r)) as [Hle | _]; [lra |].
  pose proof (Zfloor_bound (Rabs r * 10 ^ f + / 2)) as [Hlo Hhi].
  pose proof (Rabs_pos r) as Habs.
  assert (Hn : (0 <= Zfloor (Rabs r * 10 ^ f + / 2))%Z).
  { apply Zfloor_lub. simpl. nra. }
  assert (Hclose : Rabs (IZR (Zfloor (Rabs r * 10 ^ f + / 2)) / 10 ^ f - Rabs r)
                   <= / 2 / 10 ^ f).
  { replace (IZR (Zfloor (Rabs r * 10 ^ f + / 2)) / 10 ^ f - Rabs r)
      with ((IZR (Zfloor (Rabs r * 10 ^ f + / 2)) - Rabs r * 10 ^ f) / 10 ^ f)
      by (field; lra).
    unfold Rdiv. rewrite Rabs_mult, (Rabs_pos_eq (/ 10 ^ f)).
    - apply Rmult_le_compat_r; [left; now apply Rinv_0_lt_compat |].
      apply Rabs_le. lra.
    - left. now apply Rinv_0_lt_compat. }
  destruct (Rlt_dec r 0) as [Hneg | Hpos].
  - exists true, (Zfloor (Rabs r * 10 ^ f + / 2)).
    split; [reflexivity |]. split; [tauto |]. split; [exact Hn |].
    rewrite (Rabs_left r Hneg) in *.
    replace (- IZR (Zfloor (- r * 10 ^ f + / 2)) / 10 ^ f - r)
      with (- (IZR (Zfloor (- r * 10 ^ f + / 2)) / 10 ^ f - - r)) by (field; lra).
    now rewrite Rabs_Ropp.
  - exists false, (Zfloor (Rabs r * 10 ^ f + / 2)).
    split; [reflexivity |].
    split; [split; [discriminate | intros; contradiction] |].
    split; [exact Hn |].
    now rewrite (Rabs_pos_eq r ltac:(lra)) in *.
Qed.

(** ** The sites of a route built by a session on the seeded catalog *)

Lemma seeded_generator_site (i : string) :
  generatorId ENTITIES_DATA i ->
  exists e : Entity, findById ENTITIES_DATA i = Some e /\ seededSite e.
Proof.
  intros (e & Hin & Hid & Hrole).
  unfold ENTITIES_DATA in Hin. cbn [In] in Hin.
  destruct Hin as [<- | [<- | [<- | [<- | [<- | [<- | [<- | []]]]]]]];
    cbn [role] in Hrole; try discriminate Hrole;
    cbn [id] in Hid; subst i;
    (eexists; split; [reflexivity |]);
    (split;
     [ do 2 eexists; split; [reflexivity |]; split; [reflexivity |]; lra
     | ]).
  - exists 280%Z. split; [cbv [avoidedOf emissionFactor primaryCategory wasteTypes
      hd_error CO2_FACTORS ToNumber availableQuantity js_mul]; f_equal; lra | lia].
  - exists 300%Z. split; [cbv [avoidedOf emissionFactor primaryCategory wasteTypes
      hd_error CO2_FACTORS ToNumber availableQuantity js_mul]; f_equal; lra | lia].
  - exists 27%Z. split; [cbv [avoidedOf emissionFactor primaryCategory wasteTypes
      hd_error CO2_FACTORS ToNumber availableQuantity js_mul]; f_equal; lra | lia].
  - exists 48%Z. split; [cbv [avoidedOf emissionFactor primaryCategory wasteTypes
      hd_error CO2_FACTORS ToNumber availableQuantity js_mul]; f_equal; lra | lia].
  - exists 500%Z. split; [cbv [avoidedOf emissionFactor primaryCategory wasteTypes
      hd_error CO2_FACTORS ToNumber availableQuantity js_mul]; f_equal; lra | lia].
Qed.

Lemma session_sites (evs : list Event) (s : AppState) :
  run ENTITIES_DATA initialState evs = Some s ->
  Forall seededSite (selectedObjs ENTITIES_DATA (routeEntities s))
  /\ length (selectedObjs ENTITIES_DATA (routeEntities s)) = length (routeEntities s)
  /\ (forall i, In i (routeEntities s) -> known ENTITIES_DATA i = true)
  /\ (length (routeEntities s) <= 5)%nat.
Proof.
  intros H.
  destruct (run_wellFormed ENTITIES_DATA evs initialState s
              (initialState_wellFormed ENTITIES_DATA) H) as (Hnd & Hgen & _).
  rewrite Forall_forall in Hgen.
  assert (Hfive : (length (routeEntities s) <= 5)%nat).
  { change 5%nat with (length ["1"; "2"; "4"; "7"; "8"]).
    apply NoDup_incl_length; [exact Hnd |].
    intros i Hi. exact (proj1 (seeded_generator i (Hgen i Hi))). }
  assert (Hknown : forall i, In i (routeEntities s) -> known ENTITIES_DATA i = true).
  { intros i Hi. destruct (seeded_generator_site i (Hgen i Hi)) as (e & He & _).
    unfold known. apply existsb_exists.
    apply findById_id in He. destruct He as [Hin Heq].
    exists e. split; [exact Hin | now apply String.eqb_eq]. }
  split; [| split; [now apply selectedObjs_length_known | now split]].
  apply Forall_selectedObjs. intros i e Hi He.
  destruct (seeded_generator_site i (Hgen i Hi)) as (e' & He' & Hs).
  rewrite He in He'. injection He' as <-. exact Hs.
Qed.

Lemma seeded_pathLength (sites : list Entity) (acc : R) :
  Forall seededSite sites ->
  exists d : R,
    pathLengthFrom (Num acc) (map coordinates sites) = Num d
    /\ acc <= d <= acc + 5 * INR (length sites).
Proof.
  revert acc. induction sites as [| a sites IH]; intros acc H.
  - exists acc. cbn. split; [reflexivity | lra].
  - destruct sites as [| b sites].
    + exists acc. cbn. split; [reflexivity | lra].
    + inversion H as [| ? ? Ha Hrest]; subst.
      inversion Hrest as [| ? ? Hb _]; subst.
      destruct Ha as [(la1 & lo1 & Hla1 & Hlo1 & Bla1 & Blo1) _].
      destruct Hb as [(la2 & lo2 & Hla2 & Hlo2 & Bla2 & Blo2) _].
      destruct (leg_short la1 lo1 la2 lo2) as (d & Hd & Hdb).
      { apply Rabs_le. lra. }
      { apply Rabs_le. lra. }
      destruct (IH (acc + d) Hrest) as (d' & Hd' & Hb').
      exists d'.
      change (pathLengthFrom (Num acc) (map coordinates (a :: b :: sites)))
        with (pathLengthFrom
                (Num acc + getDistanceFromLatLonInKm (lat a) (lng a) (lat b) (lng b))%js
                (map coordinates (b :: sites))).
      rewrite Hla1, Hlo1, Hla2, Hlo2, Hd. cbn [js_add]. split; [exact Hd' |].
      change (length (a :: b :: sites)) with (S (length (b :: sites))).
      rewrite S_INR. lra.
Qed.

Lemma seeded_avoided (sites : list Entity) (z0 : Z) :
  Forall seededSite sites ->
  exists z : Z,
    avoidedFrom (Num (IZR z0 / 2)) sites = Num (IZR z / 2)
    /\ (z0 + 27 * Z.of_nat (length sites) <= z
        <= z0 + 500 * Z.of_nat (length sites))%Z.
Proof.
  revert z0. induction sites as [| e sites IH]; intros z0 H.
  - exists z0. cbn [avoidedFrom length]. split; [reflexivity | lia].
  - inversion H as [| ? ? He Hrest]; subst.
    destruct He as [_ (w & Hw & Bw)].
    destruct (IH (z0 + w)%Z Hrest) as (z & Hz & Bz).
    exists z. cbn [avoidedFrom]. rewrite Hw. cbn [js_add].
    replace (IZR z0 / 2 + IZR w / 2) with (IZR (z0 + w) / 2)
      by (rewrite plus_IZR; field).
    split; [exact Hz |].
    change (length (e :: sites)) with (S (length sites)). lia.
Qed.

Lemma toFixed_readback_nonneg (r : R) (f : nat) :
  0 <= r < 10 ^ 21 ->
  exists n : Z,
    (0 <= n)%Z
    /\ toFixed (Num r) f = FixedString false n f
    /\ Rabs (IZR n / 10 ^ f - r) <= / 2 / 10 ^ f.
Proof.
  intros [H0 Hbig].
  destruct (toFixed_readback r f) as (negative & n & Hn & Hsign & Hpos & Hclose).
  { rewrite Rabs_pos_eq; lra. }
  destruct negative.
  - exfalso. assert (r < 0) by now apply Hsign. lra.
  - now exists n.
Qed.

(** A whole number of halves is printed with one digit as it is. *)
Lemma toFixed_halves (z : Z) :
  (0 <= z)%Z -> IZR z / 2 < 10 ^ 21 ->
  toFixed (Num (IZR z / 2)) 1 = FixedString false (5 * z) 1
  /\ StringToNumber (FixedString false (5 * z) 1) = Num (IZR z / 2).
Proof.
  intros Hz Hbig. apply IZR_le in Hz. split.
  - apply toFixed_nonneg; [lra | exact Hbig |].
    rewrite mult_IZR. simpl. lra.
  - cbn [StringToNumber]. f_equal. rewrite mult_IZR. simpl. field.
Qed.

Lemma generator_known (catalog : list Entity) (i : string) :
  generatorId catalog i -> known catalog i = true.
Proof.
  intros (e & Hin & Hid & _). unfold known. apply existsb_exists.
  exists e. split; [exact Hin | now apply String.eqb_eq].
Qed.

Lemma session_known (catalog : list Entity) (evs : list Event) (s : AppState) :
  run catalog initialState evs = Some s ->
  forall i, In i (routeEntities s) -> known catalog i = true.
Proof.
  intros H i Hi.
  destruct (run_wellFormed catalog evs initialState s
              (initialState_wellFormed catalog) H) as (_ & Hgen & _).
  rewrite Forall_forall in Hgen. apply generator_known. now apply Hgen.
Qed.


(** The figures of a route built by a session on the seeded catalog: the
    distance [d] and the avoided CO2 [z / 2] are real numbers, and the
    returned record is the one below. *)
Lemma session_metrics (evs : list Event) (s : AppState) :
  run ENTITIES_DATA initialState evs = Some s ->
  let route := routeEntities s in
  let sites := selectedObjs ENTITIES_DATA route in
  length sites = length route
  /\ (length route <= 5)%nat
  /\ exists (d : R) (z : Z),
       pathLength (map coordinates sites) = Num d
       /\ 0 <= d <= 5 * INR (length sites)
       /\ avoidedFrom (Num 0) sites = Num (IZR z / 2)
       /\ (27 * Z.of_nat (length sites) <= z <= 500 * Z.of_nat (length sites))%Z
       /\ routeMetrics route
          = if (length sites <? 2)%nat then zeroed
            else mkRouteMetrics
                   (VString (toFixed (Num d) 2))
                   (VString (toFixed
                      (Num (d * 2500
                            * (1 - if (2 <? length sites)%nat then 0.10 else 0))) 0))
                   VUndefined
                   (balanceFrom (Num 0) sites)
                   (VString (toFixed (Num (IZR z / 2)) 1))
                   (VString (toFixed (Num (IZR z / 2 - d * 0.25)) 1)).
Proof.
  intros H route sites.
  destruct (session_sites evs s H) as (Hsites & Hlen & _ & Hfive).
  fold route in Hsites, Hlen. fold sites in Hsites, Hlen.
  split; [exact Hlen |]. split; [exact Hfive |].
  destruct (seeded_pathLength sites 0 Hsites) as (d & Hd & Hdb).
  destruct (seeded_avoided sites 0 Hsites) as (z & Hz & Hzb).
  replace (IZR 0 / 2) with 0 in Hz by lra.
  exists d, z.
  split; [exact Hd |]. split; [lra |]. split; [exact Hz |]. split; [lia |].
  rewrite Hlen. unfold routeMetrics.
  destruct (length route <? 2)%nat eqn:Hshort.
  - apply routeMetrics_on_short. now apply Nat.ltb_lt.
  - apply Nat.ltb_ge in Hshort.
    rewrite (routeMetrics_on_ordered ENTITIES_DATA route Hshort).
    fold sites. unfold pathLength in Hd |- *. rewrite Hd, Hz.
    unfold TRUCK_EMISSION_PER_KM.
    destruct (2 <? length route)%nat; reflexivity.
Qed.

(** ** The route of the sites "1" and "4" *)

Lemma route_1_4_distance :
  exists d : R,
    pathLength (map coordinates (selectedObjs ENTITIES_DATA ["1"; "4"])) = Num d
    /\ 0.36801 < d < 0.36806.
Proof.
  destruct distance_1_4 as (d & Hd & Hb).
  exists d. split; [| exact Hb].
  resolve_route. cbv [pathLength map coordinates lat lng pathLengthFrom fst snd].
  rewrite Hd. cbn [js_add]. f_equal. ring.
Qed.

Lemma route_1_4_metrics :
  exists d : R,
    pathLength (map coordinates (selectedObjs ENTITIES_DATA ["1"; "4"])) = Num d
    /\ 0.36801 < d < 0.36806
    /\ avoidedFrom (Num 0) (selectedObjs ENTITIES_DATA ["1"; "4"]) = Num 153.5
    /\ routeMetrics ["1"; "4"]
       = mkRouteMetrics
           (VString (FixedString false 37 2))
           (VString (FixedString false 920 0))
           VUndefined
           (Num 84000)
           (VString (FixedString false 1535 1))
           (VString (FixedString false 1534 1)).
Proof.
  destruct route_1_4_distance as (d & Hd & Hb).
  exists d. split; [exact Hd |]. split; [exact Hb |].
  assert (Ha : avoidedFrom (Num 0) (selectedObjs ENTITIES_DATA ["1"; "4"]) = Num 153.5).
  { resolve_route.
    cbv [avoidedFrom avoidedOf emissionFactor primaryCategory wasteTypes hd_error
         CO2_FACTORS ToNumber availableQuantity js_add js_mul].
    f_equal. lra. }
  split; [exact Ha |].
  unfold routeMetrics.
  rewrite (routeMetrics_on_ordered ENTITIES_DATA ["1"; "4"]) by (simpl; lia).
  rewrite Hd, Ha.
  change (2 <? length ["1"; "4"])%nat with false.
  cbv [TRUCK_EMISSION_PER_KM js_mul js_sub].
  f_equal.
  - f_equal. apply toFixed_nonneg; simpl; lra.
  - f_equal. apply toFixed_nonneg; simpl; lra.
  - resolve_route.
    cbv [balanceFrom regime primaryCategory wasteTypes hd_error getEconomicModel
         type availableQuantity pricePerUnit js_add js_sub js_mul].
    f_equal. lra.
  - f_equal. apply toFixed_nonneg; simpl; lra.
  - f_equal. apply toFixed_nonneg; simpl; lra.
Qed.

Lemma INR_le_5 (n : nat) : (n <= 5)%nat -> INR n <= 5.
Proof. intros H. apply le_INR in H. simpl in H. lra. Qed.

Lemma accumulate_regime (g a : number) (e : Entity) :
  accumulate (g, a) e
  = (match regime e with
     | INGRESO => (g + availableQuantity e * pricePerUnit e)%js
     | COSTO => (g - availableQuantity e * pricePerUnit e)%js
     | GRATIS => g
     end,
     (a + avoidedOf e)%js).
Proof.
  unfold accumulate. fold (primaryCategory e). fold (regime e).
  fold (emissionFactor (primaryCategory e)). fold (avoidedOf e).
  destruct (regime e); reflexivity.
Qed.

(** * Material balance *)

(** C1, as stated, fails for a route of one site.  One click on the card
    of Restaurante El Baluarte gives the route ["1"]; its only site is a
    REVENUE site worth 50 * 1500 = 75000, and the returned balance is 0. *)
Lemma single_site_route_has_zero_balance :
  run ENTITIES_DATA initialState [ClickToggle 0]
  = Some (mkAppState GESTOR TODOS None ["1"] MANUAL EmptyString)
  /\ map regime (selectedObjs ENTITIES_DATA ["1"]) = [INGRESO]
  /\ balanceFrom (Num 0) (selectedObjs ENTITIES_DATA ["1"]) = Num 75000
  /\ goodsBalance (routeMetrics ["1"]) = Num 0
  /\ goodsBalance (routeMetrics ["1"])
     <> balanceFrom (Num 0) (selectedObjs ENTITIES_DATA ["1"]).
Proof.
  assert (Hb : balanceFrom (Num 0) (selectedObjs ENTITIES_DATA ["1"]) = Num 75000).
  { resolve_route.
    cbv [balanceFrom regime primaryCategory wasteTypes hd_error getEconomicModel
         type availableQuantity pricePerUnit js_add js_sub js_mul].
    f_equal. lra. }
  split; [reflexivity |]. split; [reflexivity |]. split; [exact Hb |].
  split; [reflexivity |].
  rewrite Hb. change (goodsBalance (routeMetrics ["1"])) with (Num 0).
  intros H. injection H as H. lra.
Qed.

(** C1, amended.  For a route of fewer than two identifiers the balance is
    0.  For any other route it is the variable [goodsCost] after the
    resolved sites have been visited in route order, starting from 0: a
    site whose first waste category resolves to REVENUE ([INGRESO]) adds
    [availableQuantity * pricePerUnit], one that resolves to COST
    ([COSTO]) subtracts it, a FREE ([GRATIS]) site leaves the variable as
    it is.  Fritos & Mas ("7", 20 at 5000, COST) then Cafe del Mar ("4",
    45 at 200, REVENUE) give 0 - 100000 + 9000 = -91000. *)
Theorem material_balance_accumulated :
  (forall (catalog : list Entity) (route : list string),
      goodsBalance (routeMetrics_on catalog route)
      = if (length route <? 2)%nat then Num 0
        else balanceFrom (Num 0) (selectedObjs catalog route))
  /\ (forall (g a : number) (e : Entity),
         fst (accumulate (g, a) e)
         = match regime e with
           | INGRESO => (g + availableQuantity e * pricePerUnit e)%js
           | COSTO => (g - availableQuantity e * pricePerUnit e)%js
           | GRATIS => g
           end)
  /\ map id (selectedObjs ENTITIES_DATA ["7"; "4"]) = ["7"; "4"]
  /\ map regime (selectedObjs ENTITIES_DATA ["7"; "4"]) = [COSTO; INGRESO]
  /\ map (fun e => (availableQuantity e * pricePerUnit e)%js)
         (selectedObjs ENTITIES_DATA ["7"; "4"])
     = [(Num 20 * Num 5000)%js; (Num 45 * Num 200)%js]
  /\ balanceFrom (Num 0) (selectedObjs ENTITIES_DATA ["7"; "4"])
     = (Num 0 - Num 20 * Num 5000 + Num 45 * Num 200)%js
  /\ goodsBalance (routeMetrics ["7"; "4"]) = Num (-91000).
Proof.
  assert (Hgen : forall catalog route,
             goodsBalance (routeMetrics_on catalog route)
             = if (length route <? 2)%nat then Num 0
               else balanceFrom (Num 0) (selectedObjs catalog route)).
  { intros catalog route. destruct (length route <? 2)%nat eqn:E.
    - apply Nat.ltb_lt in E. now rewrite routeMetrics_on_short.
    - apply Nat.ltb_ge in E. now rewrite routeMetrics_on_ordered. }
  split; [exact Hgen |].
  split; [intros g a e; now rewrite accumulate_regime |].
  split; [reflexivity |]. split; [reflexivity |]. split; [reflexivity |].
  split; [reflexivity |].
  unfold routeMetrics. rewrite Hgen.
  change (length ["7"; "4"] <? 2)%nat with false. cbv iota.
  resolve_route.
  cbv [balanceFrom regime primaryCategory wasteTypes hd_error getEconomicModel
       type availableQuantity pricePerUnit js_add js_sub js_mul].
  f_equal. lra.
Qed.

(** * Volume discount *)

(** C2, as stated, fails.  Two clicks give the route ["1"; "4"] of two
    sites.  Its base logistics cost, distance * 2500, lies strictly
    between 920 and 921, and no discount applies; the returned cost is the
    string "920", which reads back as 920, not as the base cost. *)
Lemma two_site_cost_is_rounded :
  run ENTITIES_DATA initialState [ClickToggle 0; ClickToggle 3]
  = Some (mkAppState GESTOR TODOS None ["1"; "4"] MANUAL EmptyString)
  /\ length (selectedObjs ENTITIES_DATA ["1"; "4"]) = 2%nat
  /\ exists base : R,
       (pathLength (map coordinates (selectedObjs ENTITIES_DATA ["1"; "4"]))
        * Num 2500)%js = Num base
       /\ 920 < base < 921
       /\ cost (routeMetrics ["1"; "4"]) = VString (FixedString false 920 0)
       /\ Number (cost (routeMetrics ["1"; "4"])) = Num 920
       /\ Number (cost (routeMetrics ["1"; "4"])) <> Num base.
Proof.
  split; [reflexivity |]. split; [reflexivity |].
  destruct route_1_4_metrics as (d & Hd & Hb & _ & Hm).
  exists (d * 2500). rewrite Hd, Hm. cbn [cost Number StringToNumber js_mul].
  split; [reflexivity |]. split; [lra |]. split; [reflexivity |].
  assert (H920 : IZR 920 / 10 ^ 0 = 920) by (simpl; lra).
  rewrite H920. split; [reflexivity |].
  intros H. injection H as H. lra.
Qed.

(** C2, amended.  On every route a session can build there are as many
    sites as identifiers.  With fewer than two the cost is the number 0.
    Otherwise the cost is returned as a string: the base cost
    [distance * 2500], times [1 - 0.10] when there are more than two sites
    and times [1 - 0] when there are exactly two, rounded to a whole
    number by [toFixed(0)].  Read back, it is a whole number within one
    half of that product, not the product itself. *)
Theorem volume_discount_on_sessions (evs : list Event) (s : AppState) :
  run ENTITIES_DATA initialState evs = Some s ->
  let route := routeEntities s in
  let sites := selectedObjs ENTITIES_DATA route in
  length sites = length route
  /\ exists base : R,
       (pathLength (map coordinates sites) * Num 2500)%js = Num base
       /\ 0 <= base
       /\ cost (routeMetrics route)
          = (if (length sites <? 2)%nat then VNumber (Num 0)
             else if (2 <? length sites)%nat
                  then VString (toFixed (Num (base * (1 - 0.10))) 0)
                  else VString (toFixed (Num (base * (1 - 0))) 0))
       /\ exists n : Z,
            (0 <= n)%Z
            /\ Number (cost (routeMetrics route)) = Num (IZR n)
            /\ Rabs (IZR n
                     - (if (length sites <? 2)%nat then 0
                        else if (2 <? length sites)%nat then base * (1 - 0.10)
                             else base * (1 - 0)))
               <= / 2.
Proof.
  intros H route sites.
  destruct (session_metrics evs s H) as (Hlen & Hfive & d & z & Hd & Hdb & _ & _ & Hm).
  fold route in Hlen, Hfive, Hd, Hdb, Hm. fold sites in Hlen, Hd, Hdb, Hm.
  split; [exact Hlen |].
  exists (d * 2500). rewrite Hd, Hm. cbn [js_mul].
  split; [reflexivity |]. split; [lra |].
  assert (Hd25 : d <= 25).
  { rewrite <- Hlen in Hfive. apply INR_le_5 in Hfive. lra. }
  destruct (length sites <? 2)%nat.
  - cbn [cost zeroed Number]. split; [reflexivity |].
    exists 0%Z. split; [lia |]. split; [reflexivity |].
    rewrite Rminus_diag, Rabs_R0. lra.
  - cbn [cost Number]. split; [destruct (2 <? length sites)%nat; reflexivity |].
    destruct (2 <? length sites)%nat.
    + destruct (toFixed_readback_nonneg (d * 2500 * (1 - 0.10)) 0)
        as (n & Hn & Hs & Hc); [simpl; lra |].
      exists n. rewrite Hs. cbn [StringToNumber]. split; [exact Hn |].
      simpl in Hc |- *. replace (IZR n / 1) with (IZR n) in * by field.
      split; [reflexivity | lra].
    + destruct (toFixed_readback_nonneg (d * 2500 * (1 - 0)) 0)
        as (n & Hn & Hs & Hc); [simpl; lra |].
      exists n. rewrite Hs. cbn [StringToNumber]. split; [exact Hn |].
      simpl in Hc |- *. replace (IZR n / 1) with (IZR n) in * by field.
      split; [reflexivity | lra].
Qed.

Lemma volume_discount_on_sessions_witness :
  run ENTITIES_DATA initialState [ClickToggle 0; ClickToggle 3; ClickToggle 5]
  = Some (mkAppState GESTOR TODOS None ["1"; "4"; "7"] MANUAL EmptyString)
  /\ exists base : R,
       (pathLength (map coordinates (selectedObjs ENTITIES_DATA ["1"; "4"; "7"]))
        * Num 2500)%js = Num base
       /\ cost (routeMetrics ["1"; "4"; "7"])
          = VString (toFixed (Num (base * (1 - 0.10))) 0).
Proof.
  assert (Hrun :
    run ENTITIES_DATA initialState [ClickToggle 0; ClickToggle 3; ClickToggle 5]
    = Some (mkAppState GESTOR TODOS None ["1"; "4"; "7"] MANUAL EmptyString))
    by reflexivity.
  split; [exact Hrun |].
  destruct (volume_discount_on_sessions _ _ Hrun) as (_ & base & Hb & _ & Hc & _).
  exists base. split; [exact Hb | exact Hc].
Defined.

(** * Net ESG impact *)




(** * The degenerate route *)

(** C4.  A route with fewer than two valid sites gets the zeroed result:
    distance 0, cost 0, balance 0, CO2 0 and net impact 0, returned as
    numbers like any other result.  This holds on every route a session
    can build, where every identifier resolves to a site, and in
    particular for the empty route and for every route of one
    identifier. *)
Theorem degenerate_route_is_zeroed
    (catalog : list Entity) (evs : list Event) (s : AppState) :
  run catalog initialState evs = Some s ->
  (length (selectedObjs catalog (routeEntities s)) < 2)%nat ->
  routeMetrics_on catalog (routeEntities s)
  = mkRouteMetrics (VNumber (Num 0)) (VNumber (Num 0)) (VNumber (Num 0))
                   (Num 0) (VNumber (Num 0)) (VNumber (Num 0))
  /\ routeMetrics_on catalog []
     = mkRouteMetrics (VNumber (Num 0)) (VNumber (Num 0)) (VNumber (Num 0))
                      (Num 0) (VNumber (Num 0)) (VNumber (Num 0))
  /\ forall i : string,
       routeMetrics_on catalog [i]
       = mkRouteMetrics (VNumber (Num 0)) (VNumber (Num 0)) (VNumber (Num 0))
                        (Num 0) (VNumber (Num 0)) (VNumber (Num 0)).
Proof.
  intros H Hlt.
  rewrite (selectedObjs_length_known catalog (routeEntities s)
             (session_known catalog evs s H)) in Hlt.
  split; [now apply routeMetrics_on_short |].
  split; [reflexivity | intros i; reflexivity].
Qed.

Lemma degenerate_route_is_zeroed_witness :
  run ENTITIES_DATA initialState [ClickToggle 0]
  = Some (mkAppState GESTOR TODOS None ["1"] MANUAL EmptyString)
  /\ length (selectedObjs ENTITIES_DATA ["1"]) = 1%nat
  /\ routeMetrics ["1"]
     = mkRouteMetrics (VNumber (Num 0)) (VNumber (Num 0)) (VNumber (Num 0))
                      (Num 0) (VNumber (Num 0)) (VNumber (Num 0)).
Proof.
  assert (Hrun :
    run ENTITIES_DATA initialState [ClickToggle 0]
    = Some (mkAppState GESTOR TODOS None ["1"] MANUAL EmptyString))
    by reflexivity.
  split; [exact Hrun |]. split; [reflexivity |].
  refine (proj1 (degenerate_route_is_zeroed ENTITIES_DATA _ _ Hrun _)).
  simpl. lia.
Defined.

(** * Unknown identifiers in a route *)




(** * What the caller receives *)

(** C6, as stated, fails.  For the route ["1"; "4"] the raw distance [d]
    lies strictly between 0.36801 and 0.36806 km.  The returned record is
    given below in full: the distance is the string "0.37", the cost the
    string "920", the net impact the string "153.4".  The raw distance,
    the raw cost [d * 2500] and the raw net impact [153.5 - d * 0.25] are
    in none of its fields, and they are not what the strings read back
    as. *)
Lemma distance_is_returned_rounded :
  run ENTITIES_DATA initialState [ClickToggle 0; ClickToggle 3]
  = Some (mkAppState GESTOR TODOS None ["1"; "4"] MANUAL EmptyString)
  /\ exists d : R,
       pathLength (map coordinates (selectedObjs ENTITIES_DATA ["1"; "4"])) = Num d
       /\ 0.36801 < d < 0.36806
       /\ routeMetrics ["1"; "4"]
          = mkRouteMetrics
              (VString (FixedString false 37 2))
              (VString (FixedString false 920 0))
              VUndefined
              (Num 84000)
              (VString (FixedString false 1535 1))
              (VString (FixedString false 1534 1))
       /\ Number (distance (routeMetrics ["1"; "4"])) = Num 0.37
       /\ Number (distance (routeMetrics ["1"; "4"])) <> Num d
       /\ Number (cost (routeMetrics ["1"; "4"])) = Num 920
       /\ Number (cost (routeMetrics ["1"; "4"])) <> Num (d * 2500 * (1 - 0))
       /\ Number (netESG (routeMetrics ["1"; "4"])) = Num 153.4
       /\ Number (netESG (routeMetrics ["1"; "4"])) <> Num (153.5 - d * 0.25).
Proof.
  split; [reflexivity |].
  destruct route_1_4_metrics as (d & Hd & Hb & _ & Hm).
  exists d. split; [exact Hd |]. split; [exact Hb |]. split; [exact Hm |].
  rewrite Hm. cbn [distance cost netESG Number StringToNumber].
  assert (H37 : IZR 37 / 10 ^ 2 = 0.37) by (simpl; lra).
  assert (H920 : IZR 920 / 10 ^ 0 = 920) by (simpl; lra).
  assert (H1534 : IZR 1534 / 10 ^ 1 = 153.4) by (simpl; lra).
  rewrite H37, H920, H1534.
  split; [reflexivity |].
  split; [intros H; injection H as H; lra |].
  split; [reflexivity |].
  split; [intros H; injection H as H; lra |].
  split; [reflexivity |].
  intros H. injection H as H. lra.
Qed.

(** C6, amended.  For a route of two or more sites built by a session the
    raw distance [d], logistics cost [c], avoided CO2 [a] and net impact
    [net] are local to the calculator.  The returned record carries them
    rounded by [toFixed], as strings: the distance to 2 decimals, the cost
    to a whole number, both emission figures to 1 decimal.  A caller who
    reads the strings back gets the distance within 0.005, the cost within
    0.5 and the net impact within 0.05 of the raw value; the avoided CO2
    of the seeded sites, a whole number of halves, is read back as it is.
    The material balance alone is returned as the raw number. *)
Theorem metrics_are_returned_rounded (evs : list Event) (s : AppState) :
  run ENTITIES_DATA initialState evs = Some s ->
  (2 <= length (routeEntities s))%nat ->
  let route := routeEntities s in
  let sites := selectedObjs ENTITIES_DATA route in
  let discount := if (2 <? length route)%nat then Num 0.10 else Num 0 in
  exists d c a net : R,
    pathLength (map coordinates sites) = Num d
    /\ (Num d * Num 2500 * (Num 1 - discount))%js = Num c
    /\ avoidedFrom (Num 0) sites = Num a
    /\ (Num a - Num d * TRUCK_EMISSION_PER_KM)%js = Num net
    /\ routeMetrics route
       = mkRouteMetrics
           (VString (toFixed (Num d) 2))
           (VString (toFixed (Num c) 0))
           VUndefined
           (balanceFrom (Num 0) sites)
           (VString (toFixed (Num a) 1))
           (VString (toFixed (Num net) 1))
    /\ (exists x : R,
          Number (distance (routeMetrics route)) = Num x /\ Rabs (x - d) <= 0.005)
    /\ (exists x : R,
          Number (cost (routeMetrics route)) = Num x /\ Rabs (x - c) <= 0.5)
    /\ Number (totalCO2 (routeMetrics route)) = Num a
    /\ (exists x : R,
          Number (netESG (routeMetrics route)) = Num x /\ Rabs (x - net) <= 0.05).
Proof.
  intros H Hlong route sites discount.
  destruct (session_metrics evs s H)
    as (Hlen & Hfive & d & z & Hd & Hdb & Hz & Hzb & Hm).
  fold route in Hlong, Hlen, Hfive, Hd, Hdb, Hz, Hzb, Hm.
  fold sites in Hlen, Hd, Hdb, Hz, Hzb, Hm.
  assert (Hshort : (length sites <? 2)%nat = false)
    by (apply Nat.ltb_ge; lia).
  rewrite Hshort in Hm.
  assert (Hlen5 : INR (length sites) <= 5).
  { rewrite <- Hlen in Hfive. now apply INR_le_5. }
  assert (Hlen2 : 2 <= INR (length sites)).
  { rewrite <- Hlen in Hlong. apply le_INR in Hlong. simpl in Hlong. lra. }
  assert (Hz1 : 27 * INR (length sites) <= IZR z <= 500 * INR (length sites)).
  { rewrite INR_IZR_INZ, <- !mult_IZR. split; apply IZR_le; lia. }
  set (c := d * 2500 * (1 - (if (2 <? length sites)%nat then 0.10 else 0))) in *.
  assert (Hc : 0 <= c <= 62500).
  { unfold c. destruct (2 <? length sites)%nat; nra. }
  exists d, c, (IZR z / 2), (IZR z / 2 - d * 0.25).
  split; [exact Hd |].
  split.
  { unfold discount, c. rewrite <- Hlen.
    destruct (2 <? length sites)%nat; reflexivity. }
  split; [exact Hz |]. split; [reflexivity |]. split; [exact Hm |].
  rewrite Hm. cbn [distance cost totalCO2 netESG Number].
  split.
  { destruct (toFixed_readback_nonneg d 2) as (n & _ & Hs & Hb); [simpl; lra |].
    rewrite Hs. cbn [StringToNumber]. eexists. split; [reflexivity |].
    simpl in Hb |- *. lra. }
  split.
  { destruct (toFixed_readback_nonneg c 0) as (n & _ & Hs & Hb); [simpl; lra |].
    rewrite Hs. cbn [StringToNumber]. eexists. split; [reflexivity |].
    simpl in Hb |- *. lra. }
  split.
  { destruct (toFixed_halves z) as [Hs Hr]; [lia | simpl; lra |].
    rewrite Hs. exact Hr. }
  destruct (toFixed_readback_nonneg (IZR z / 2 - d * 0.25) 1)
    as (n & _ & Hs & Hb); [simpl; lra |].
  rewrite Hs. cbn [StringToNumber]. eexists. split; [reflexivity |].
  simpl in Hb |- *. lra.
Qed.

Lemma metrics_are_returned_rounded_witness :
  run ENTITIES_DATA initialState [ClickToggle 6; ClickToggle 1]
  = Some (mkAppState GESTOR TODOS None ["8"; "2"] MANUAL EmptyString)
  /\ (2 <= length ["8"; "2"])%nat
  /\ Number (totalCO2 (routeMetrics ["8"; "2"]))
     = avoidedFrom (Num 0) (selectedObjs ENTITIES_DATA ["8"; "2"]).
Proof.
  assert (Hrun :
    run ENTITIES_DATA initialState [ClickToggle 6; ClickToggle 1]
    = Some (mkAppState GESTOR TODOS None ["8"; "2"] MANUAL EmptyString))
    by reflexivity.
  assert (Hlen : (2 <= length ["8"; "2"])%nat) by (simpl; lia).
  split; [exact Hrun |]. split; [exact Hlen |].
  destruct (metrics_are_returned_rounded _ _ Hrun Hlen)
    as (d & c & a & net & _ & _ & Ha & _ & _ & _ & _ & Hco2 & _).
  cbn [routeEntities] in Ha, Hco2. rewrite Ha. exact Hco2.
Defined.

(** * The distance in binary64: properties *)

Section Binary64Facts.

Import Binary64.
Local Open Scope Z_scope.

(** ** Signs and commutativity *)

Lemma binary_round_aux_opp (s : bool) (m e : Z) (l : location) :
  binary_round_aux prec emax (negb s) m e l
  = SFopp (binary_round_aux prec emax s m e l).
Proof.
  unfold binary_round_aux.
  destruct (shr_fexp prec emax m e l) as [mrs' e'].
  destruct (shr_fexp prec emax _ e' loc_Exact) as [mrs'' e''].
  destruct (shr_m mrs''); try reflexivity.
  destruct (e'' <=? emax - prec); reflexivity.
Qed.

Lemma binary_round_aux_xorb_negb_l (sx sy : bool) (m e : Z) (l : location) :
  binary_round_aux prec emax (xorb (negb sx) sy) m e l
  = SFopp (binary_round_aux prec emax (xorb sx sy) m e l).
Proof. rewrite <- binary_round_aux_opp. now destruct sx, sy. Qed.

Lemma binary_round_opp (m : positive) (e : Z) :
  binary_round prec emax true m e = SFopp (binary_round prec emax false m e).
Proof.
  unfold binary_round. destruct (shl_align _ _ _) as [mz ez].
  exact (binary_round_aux_opp false (Zpos mz) ez loc_Exact).
Qed.

Lemma binary_normalize_opp (z e : Z) :
  z <> 0 ->
  binary_normalize prec emax (- z) e false
  = SFopp (binary_normalize prec emax z e false).
Proof.
  destruct z as [| p | p]; intros H; cbn [Z.opp binary_normalize].
  - contradiction.
  - apply binary_round_opp.
  - rewrite binary_round_opp. now destruct (binary_round prec emax false p e) as [[] | [] | | [] ? ?].
Qed.

Lemma SFopp_involutive (x : float) : SFopp (SFopp x) = x.
Proof. destruct x as [[] | [] | | [] ? ?]; reflexivity. Qed.

Lemma mul_opp_l (x y : float) : mul (SFopp x) y = SFopp (mul x y).
Proof.
  destruct x as [sx | sx | | sx mx ex], y as [sy | sy | | sy my ey];
    cbn [mul SFmul SFopp]; try reflexivity;
    try (now destruct sx, sy).
  apply binary_round_aux_xorb_negb_l.
Qed.

Lemma mul_comm (x y : float) : mul x y = mul y x.
Proof.
  destruct x as [sx | sx | | sx mx ex], y as [sy | sy | | sy my ey];
    cbn [mul SFmul]; try reflexivity;
    try (now rewrite xorb_comm).
  now rewrite xorb_comm, Pos.mul_comm, Z.add_comm.
Qed.

Lemma mul_opp_r (x y : float) : mul x (SFopp y) = SFopp (mul x y).
Proof. now rewrite mul_comm, mul_opp_l, mul_comm. Qed.

Lemma mul_opp_opp (x y : float) : mul (SFopp x) (SFopp y) = mul x y.
Proof. now rewrite mul_opp_l, mul_opp_r, SFopp_involutive. Qed.

Lemma div_opp_l (x y : float) : div (SFopp x) y = SFopp (div x y).
Proof.
  destruct x as [sx | sx | | sx mx ex], y as [sy | sy | | sy my ey];
    cbn [div SFdiv SFopp]; try reflexivity;
    try (now destruct sx, sy).
  destruct (SFdiv_core_binary prec emax (Z.pos mx) ex (Z.pos my) ey) as [[mz ez] lz].
  apply binary_round_aux_xorb_negb_l.
Qed.

(** [y - x] is the opposite of [x - y], except that the difference of two
    equal numbers is [+0] both ways. *)
Lemma sub_swap (x y : float) :
  sub y x = SFopp (sub x y)
  \/ (sub x y = S754_zero false /\ sub y x = S754_zero false).
Proof.
  destruct x as [sx | sx | | sx mx ex], y as [sy | sy | | sy my ey];
    cbn [sub SFsub SFopp];
    try (left; reflexivity);
    try (destruct sx, sy; cbn; (left; reflexivity) || (right; split; reflexivity)).
  rewrite (Z.min_comm ey ex).
  set (ez := Z.min ex ey).
  set (a := cond_Zopp sx (Z.pos (fst (shl_align mx ex ez)))).
  set (b := cond_Zopp sy (Z.pos (fst (shl_align my ey ez)))).
  destruct (Z.eq_dec (a - b) 0) as [E | E].
  - right. replace (b - a) with 0 by lia. rewrite E. split; reflexivity.
  - left. replace (b - a) with (- (a - b)) by lia.
    now apply binary_normalize_opp.
Qed.

(** ** Products that cannot overflow *)

Lemma digits2_pos_size (p : positive) : digits2_pos p = Pos.size p.
Proof. induction p as [p IH | p IH |]; cbn; now rewrite ?IH. Qed.

Lemma Zdigits2_log2 (z : Z) : 0 < z -> Zdigits2 z = Z.log2 z + 1.
Proof.
  destruct z as [| p | p]; intros H; try lia.
  cbn [Zdigits2]. rewrite digits2_pos_size.
  destruct p as [p | p |]; cbn [Pos.size Z.log2]; lia.
Qed.

Lemma Zdigits2_mono (a b : Z) : 0 <= a <= b -> Zdigits2 a <= Zdigits2 b.
Proof.
  intros [Ha Hab]. destruct (Z.eq_dec a 0) as [-> | Hne].
  - destruct b; cbn; lia.
  - rewrite !Zdigits2_log2 by lia.
    pose proof (Z.log2_le_mono a b Hab). lia.
Qed.

Lemma Zdigits2_succ (a : Z) : 0 <= a -> Zdigits2 (a + 1) <= Zdigits2 a + 1.
Proof.
  intros Ha. destruct (Z.eq_dec a 0) as [-> | Hne]; [cbn; lia |].
  rewrite !Zdigits2_log2 by lia.
  pose proof (Z.log2_succ_le a). unfold Z.succ in *. lia.
Qed.

Lemma Zdigits2_mul (a b : positive) :
  Zdigits2 (Z.pos (a * b)) <= Zdigits2 (Z.pos a) + Zdigits2 (Z.pos b).
Proof.
  rewrite !Zdigits2_log2 by lia. rewrite Pos2Z.inj_mul.
  pose proof (Z.log2_mul_above (Z.pos a) (Z.pos b)). lia.
Qed.

Lemma shr_1_bound (mrs : shr_record) :
  0 <= shr_m mrs -> 0 <= shr_m (shr_1 mrs) <= shr_m mrs.
Proof.
  destruct mrs as [m r s]. cbn [shr_m]. intros H.
  destruct m as [| [p | p |] | p]; cbn [shr_1 shr_m]; lia.
Qed.

Lemma iter_shr_1_bound (p : positive) (mrs : shr_record) :
  0 <= shr_m mrs -> 0 <= shr_m (SpecFloat.iter_pos shr_1 p mrs) <= shr_m mrs.
Proof.
  revert mrs. induction p as [p IH | p IH |]; intros mrs H; cbn [SpecFloat.iter_pos].
  - pose proof (shr_1_bound mrs H) as H1.
    pose proof (IH (shr_1 mrs) ltac:(lia)) as H2.
    pose proof (IH (SpecFloat.iter_pos shr_1 p (shr_1 mrs)) ltac:(lia)) as H3. lia.
  - pose proof (IH mrs H) as H2.
    pose proof (IH (SpecFloat.iter_pos shr_1 p mrs) ltac:(lia)) as H3. lia.
  - now apply shr_1_bound.
Qed.

Lemma shr_fexp_bound (m e : Z) (l : location) :
  0 <= m ->
  0 <= shr_m (fst (shr_fexp prec emax m e l)) <= m
  /\ snd (shr_fexp prec emax m e l) <= Z.max e (fexp prec emax (Zdigits2 m + e)).
Proof.
  intros H. unfold shr_fexp, shr.
  assert (Hm : shr_m (shr_record_of_loc m l) = m) by (destruct l as [| []]; reflexivity).
  destruct (fexp prec emax (Zdigits2 m + e) - e) as [| p | p] eqn:E;
    cbn [fst snd]; rewrite ?Hm; try lia.
  pose proof (iter_shr_1_bound p (shr_record_of_loc m l)) as Hb.
  rewrite Hm in Hb. lia.
Qed.

Lemma round_nearest_even_bound (m : Z) (l : location) :
  m <= round_nearest_even m l <= m + 1.
Proof.
  destruct l as [| []]; cbn [round_nearest_even]; try lia.
  destruct (Z.even m); lia.
Qed.

(** A rounded value of small enough magnitude is a zero or a finite
    number. *)
Lemma binary_round_aux_finite (s : bool) (m e : Z) (l : location) :
  0 <= m -> Zdigits2 m <= 106 -> e <= 864 ->
  binary_round_aux prec emax s m e l = S754_zero s
  \/ exists (m' : positive) (e' : Z),
       binary_round_aux prec emax s m e l = S754_finite s m' e'.
Proof.
  intros Hm Hd He. unfold binary_round_aux.
  pose proof (shr_fexp_bound m e l Hm) as [Hm1 He1].
  destruct (shr_fexp prec emax m e l) as [mrs' e']. cbn [fst snd] in Hm1, He1.
  set (m1 := round_nearest_even (shr_m mrs') (loc_of_shr_record mrs')).
  pose proof (round_nearest_even_bound (shr_m mrs') (loc_of_shr_record mrs')) as Hr.
  fold m1 in Hr.
  pose proof (shr_fexp_bound m1 e' loc_Exact ltac:(lia)) as [Hm2 He2].
  destruct (shr_fexp prec emax m1 e' loc_Exact) as [mrs'' e'']. cbn [fst snd] in Hm2, He2.
  assert (Hd1 : Zdigits2 m1 <= 107).
  { pose proof (Zdigits2_mono m1 (shr_m mrs' + 1) ltac:(lia)).
    pose proof (Zdigits2_succ (shr_m mrs') ltac:(lia)).
    pose proof (Zdigits2_mono (shr_m mrs') m ltac:(lia)). lia. }
  unfold fexp, emin, prec, emax in He1, He2.
  destruct (shr_m mrs'') as [| p | p] eqn:E; [now left | | lia].
  right. assert (Hle : (e'' <=? emax - prec) = true).
  { apply Z.leb_le. unfold emax, prec. lia. }
  rewrite Hle. now exists p, e''.
Qed.

Lemma valid_digits (s : bool) (m : positive) (e : Z) :
  valid_binary prec emax (S754_finite s m e) = true ->
  Zdigits2 (Z.pos m) <= 53.
Proof.
  cbn [valid_binary]. unfold bounded, canonical_mantissa, fexp, emin, prec, emax.
  intros H. apply andb_prop in H. destruct H as [H _].
  apply Z.eqb_eq in H. cbn [Zdigits2]. lia.
Qed.

Lemma leb_exponent (s : bool) (m n : positive) (e f : Z) :
  SFleb (SFabs (S754_finite s m e)) (S754_finite false n f) = true -> e <= f.
Proof.
  unfold SFleb. cbn [SFabs SFcompare].
  destruct (e ?= f) eqn:E; intros H.
  - apply Z.compare_eq in E. lia.
  - rewrite Z.compare_lt_iff in E. lia.
  - discriminate H.
Qed.

Lemma mul_finite (sx sy : bool) (mx my : positive) (ex ey : Z) :
  Zdigits2 (Z.pos mx) <= 53 -> Zdigits2 (Z.pos my) <= 53 -> ex + ey <= 864 ->
  mul (S754_finite sx mx ex) (S754_finite sy my ey) = S754_zero (xorb sx sy)
  \/ exists (m : positive) (e : Z),
       mul (S754_finite sx mx ex) (S754_finite sy my ey)
       = S754_finite (xorb sx sy) m e.
Proof.
  intros Hx Hy He. cbn [mul SFmul].
  apply binary_round_aux_finite; [lia | | exact He].
  pose proof (Zdigits2_mul mx my). lia.
Qed.

Lemma sub_diag (x : float) : is_finite x = true -> sub x x = S754_zero false.
Proof.
  destruct x as [[] | [] | | s m e]; cbn [is_finite]; intros H;
    try discriminate H; try reflexivity.
  cbn [sub SFsub]. now rewrite Z.sub_diag.
Qed.

(** ** The distance of a point to itself *)

Lemma deg2rad_opp (x : float) : deg2rad (SFopp x) = SFopp (deg2rad x).
Proof. apply mul_opp_l. Qed.

Lemma deg2rad_finite (x : float) :
  valid_binary prec emax x = true ->
  SFleb (SFabs x) (ofZ 90) = true ->
  is_finite (deg2rad x) = true.
Proof.
  intros Hv Hle. unfold deg2rad.
  change (div PI (ofZ 180)) with (S754_finite false 5030569068109113 (-58)).
  destruct x as [s | s | | s m e]; try discriminate Hle.
  - reflexivity.
  - change (ofZ 90) with (S754_finite false 6333186975989760 (-46)) in Hle.
    apply leb_exponent in Hle. apply valid_digits in Hv.
    destruct (mul_finite s false m 5030569068109113 e (-58) Hv ltac:(cbn; lia) ltac:(lia))
      as [-> | (m' & e' & ->)]; reflexivity.
Qed.

Lemma square_bounded (c : float) :
  valid_binary prec emax c = true ->
  SFleb (SFabs c) (ofZ 1) = true ->
  mul (mul (mul c c) (S754_zero false)) (S754_zero false) = S754_zero false.
Proof.
  intros Hv Hle.
  destruct c as [s | s | | s m e]; try discriminate Hle.
  - now destruct s.
  - change (ofZ 1) with (S754_finite false 4503599627370496 (-52)) in Hle.
    apply leb_exponent in Hle. apply valid_digits in Hv.
    destruct (mul_finite s s m m e e Hv Hv ltac:(lia)) as [-> | (m' & e' & ->)];
      now destruct s.
Qed.

Lemma distance_same_point (Math : MathObject) (lat lon : float) :
  Conforming Math ->
  valid_binary prec emax lat = true ->
  SFleb (SFabs lat) (ofZ 90) = true ->
  is_finite lon = true ->
  getDistanceFromLatLonInKm Math lat lon lat lon = S754_zero false.
Proof.
  intros HM Hv Hle Hlon. unfold getDistanceFromLatLonInKm.
  assert (Hlat : is_finite lat = true).
  { destruct lat as [| | |]; try reflexivity; discriminate Hle. }
  rewrite (sub_diag lat Hlat), (sub_diag lon Hlon).
  change (div (deg2rad (S754_zero false)) (ofZ 2)) with (S754_zero false).
  rewrite (sin_zero Math HM).
  destruct (cos_range Math HM (deg2rad lat) (deg2rad_finite lat Hv Hle)) as [Hcv Hcl].
  rewrite (square_bounded _ Hcv Hcl).
  change (add (mul (S754_zero false) (S754_zero false)) (S754_zero false))
    with (S754_zero false).
  change (sqrt (S754_zero false)) with (S754_zero false).
  change (sqrt (sub (ofZ 1) (S754_zero false))) with (ofZ 1).
  rewrite (atan2_zero Math HM). reflexivity.
Qed.

(** ** Symmetry *)

Lemma half_angle_opp (Math : MathObject) (d : float) :
  (forall x : float, sin Math (SFopp x) = SFopp (sin Math x)) ->
  sin Math (div (deg2rad (SFopp d)) (ofZ 2))
  = SFopp (sin Math (div (deg2rad d) (ofZ 2))).
Proof. intros H. now rewrite deg2rad_opp, div_opp_l, H. Qed.

Lemma distance_symmetric (Math : MathObject) (lat1 lon1 lat2 lon2 : float) :
  (forall x : float, sin Math (SFopp x) = SFopp (sin Math x)) ->
  getDistanceFromLatLonInKm Math lat1 lon1 lat2 lon2
  = getDistanceFromLatLonInKm Math lat2 lon2 lat1 lon1.
Proof.
  intros Hodd. unfold getDistanceFromLatLonInKm.
  rewrite (mul_comm (cos Math (deg2rad lat2)) (cos Math (deg2rad lat1))).
  set (C := mul (cos Math (deg2rad lat1)) (cos Math (deg2rad lat2))).
  assert (Hlat :
    mul (sin Math (div (deg2rad (sub lat2 lat1)) (ofZ 2)))
        (sin Math (div (deg2rad (sub lat2 lat1)) (ofZ 2)))
    = mul (sin Math (div (deg2rad (sub lat1 lat2)) (ofZ 2)))
          (sin Math (div (deg2rad (sub lat1 lat2)) (ofZ 2)))).
  { destruct (sub_swap lat1 lat2) as [-> | [-> ->]]; [| reflexivity].
    now rewrite half_angle_opp, mul_opp_opp. }
  assert (Hlon :
    mul (mul C (sin Math (div (deg2rad (sub lon2 lon1)) (ofZ 2))))
        (sin Math (div (deg2rad (sub lon2 lon1)) (ofZ 2)))
    = mul (mul C (sin Math (div (deg2rad (sub lon1 lon2)) (ofZ 2))))
          (sin Math (div (deg2rad (sub lon1 lon2)) (ofZ 2)))).
  { destruct (sub_swap lon1 lon2) as [-> | [-> ->]]; [| reflexivity].
    now rewrite half_angle_opp, !mul_opp_r, mul_opp_l, SFopp_involutive. }
  now rewrite Hlat, Hlon.
Qed.

(** ** The sign of the result *)

Lemma binary_round_aux_sign (m e : Z) (l : location) :
  binary_round_aux prec emax false m e l = S754_nan
  \/ sign_clear (binary_round_aux prec emax false m e l) = true.
Proof.
  unfold binary_round_aux.
  destruct (shr_fexp prec emax m e l) as [mrs' e'].
  destruct (shr_fexp prec emax _ e' loc_Exact) as [mrs'' e''].
  destruct (shr_m mrs''); [now right | | now left].
  destruct (e'' <=? emax - prec); now right.
Qed.

Lemma mul_sign (x y : float) :
  sign_clear x = true -> sign_clear y = true ->
  mul x y = S754_nan \/ sign_clear (mul x y) = true.
Proof.
  destruct x as [[] | [] | | [] mx ex]; intros Hx; try discriminate Hx;
    destruct y as [[] | [] | | [] my ey]; intros Hy; try discriminate Hy;
    cbn [mul SFmul xorb]; try (now left); try (now right).
  apply binary_round_aux_sign.
Qed.

Lemma sqrt_sign (a : float) :
  sqrt a = S754_nan \/ sign_clear (sqrt a) = true
  \/ (a = S754_zero true /\ sqrt a = S754_zero true).
Proof.
  destruct a as [[] | [] | | [] m e]; cbn [sqrt SFsqrt];
    try (now left); try (now right; left); try (now right; right).
  destruct (SFsqrt_core_binary prec emax (Z.pos m) e) as [[mz ez] lz].
  destruct (binary_round_aux_sign mz ez lz) as [H | H]; [now left | now right; left].
Qed.

Lemma distance_not_negative (Math : MathObject) (lat1 lon1 lat2 lon2 : float) :
  Conforming Math ->
  getDistanceFromLatLonInKm Math lat1 lon1 lat2 lon2 = S754_nan
  \/ SFleb (S754_zero false) (getDistanceFromLatLonInKm Math lat1 lon1 lat2 lon2)
     = true.
Proof.
  intros HM. unfold getDistanceFromLatLonInKm.
  set (a := add _ _).
  assert (Hclear : forall t : float,
            sign_clear t = true ->
            mul (ofZ 6371) (mul (ofZ 2) t) = S754_nan
            \/ SFleb (S754_zero false) (mul (ofZ 6371) (mul (ofZ 2) t)) = true).
  { intros t Ht.
    destruct (mul_sign (ofZ 2) t eq_refl Ht) as [-> | H2]; [now left |].
    destruct (mul_sign (ofZ 6371) _ eq_refl H2) as [-> | H3]; [now left |].
    right. now destruct (mul (ofZ 6371) (mul (ofZ 2) t)) as [[] | [] | | [] m e]. }
  destruct (sqrt_sign a) as [-> | [Hy | [Ha ->]]].
  - left. now rewrite (atan2_nan Math HM).
  - destruct (atan2_sign Math HM (sqrt a) (sqrt (sub (ofZ 1) a)) Hy) as [-> | Ht].
    + now left.
    + now apply Hclear.
  - rewrite Ha.
    change (sqrt (sub (ofZ 1) (S754_zero true))) with (ofZ 1).
    rewrite (atan2_zero Math HM). now right.
Qed.


(** ** Nearly antipodal points *)

Lemma tableMath_conforming : Conforming tableMath.
Proof.
  constructor.
  - reflexivity.
  - intros [s | s | | s m e]; cbn [tableMath sin tableSin SFopp]; try reflexivity.
    destruct ((m =? 6877731147805428)%positive && (e =? -52)); [reflexivity |].
    destruct ((m =? 7074237752028440)%positive && (e =? -52)); reflexivity.
  - intros [s | s | | s m e] H; try discriminate H; cbn [tableMath cos tableCos].
    + split; reflexivity.
    + destruct ((m =? 6877731147805428)%positive && (e =? -52)); split; reflexivity.
  - intros s. reflexivity.
  - intros x. reflexivity.
  - intros y x Hy. destruct y as [[] | [] | | [] m e]; try discriminate Hy;
      destruct x as [sx | sx | | sx mx ex]; cbn [tableMath atan2 tableAtan2];
      (now left) || (now right).
Qed.

(** C8, as stated, fails.  For the points (-87.5, 0) and (87.5, 180) the
    source passes 1.5271630954950384 and 1.5707963267948966 to [Math.sin]
    and -1.5271630954950384 and 1.5271630954950384 to [Math.cos].  With the
    correctly rounded sine and cosine at these arguments [a] is
    1.0000000000000002, [1 - a] is negative, its square root is [NaN] and
    so is the distance: the result is not a non-negative real. *)
Lemma antipodal_distance_is_NaN :
  div (deg2rad (sub (dyadic 175 (-1)) (SFopp (dyadic 175 (-1))))) (ofZ 2)
  = S754_finite false 6877731147805428 (-52)
  /\ div (deg2rad (sub (ofZ 180) (ofZ 0))) (ofZ 2)
     = S754_finite false 7074237752028440 (-52)
  /\ deg2rad (SFopp (dyadic 175 (-1))) = S754_finite true 6877731147805428 (-52)
  /\ deg2rad (dyadic 175 (-1)) = S754_finite false 6877731147805428 (-52)
  /\ (forall Math : MathObject,
        sin Math (S754_finite false 6877731147805428 (-52))
        = S754_finite false 8998626396882423 (-53) ->
        sin Math (S754_finite false 7074237752028440 (-52))
        = S754_finite false 4503599627370496 (-52) ->
        cos Math (S754_finite true 6877731147805428 (-52))
        = S754_finite false 6286216213909010 (-57) ->
        cos Math (S754_finite false 6877731147805428 (-52))
        = S754_finite false 6286216213909010 (-57) ->
        (forall y : float, atan2 Math y S754_nan = S754_nan) ->
        getDistanceFromLatLonInKm Math
          (SFopp (dyadic 175 (-1))) (ofZ 0) (dyadic 175 (-1)) (ofZ 180)
        = S754_nan)
  /\ getDistanceFromLatLonInKm tableMath
       (SFopp (dyadic 175 (-1))) (ofZ 0) (dyadic 175 (-1)) (ofZ 180)
     = S754_nan.
Proof.
  assert (H1 : div (deg2rad (sub (dyadic 175 (-1)) (SFopp (dyadic 175 (-1))))) (ofZ 2)
               = S754_finite false 6877731147805428 (-52)) by (vm_compute; reflexivity).
  assert (H2 : div (deg2rad (sub (ofZ 180) (ofZ 0))) (ofZ 2)
               = S754_finite false 7074237752028440 (-52)) by (vm_compute; reflexivity).
  assert (H3 : deg2rad (SFopp (dyadic 175 (-1)))
               = S754_finite true 6877731147805428 (-52)) by (vm_compute; reflexivity).
  assert (H4 : deg2rad (dyadic 175 (-1))
               = S754_finite false 6877731147805428 (-52)) by (vm_compute; reflexivity).
  split; [exact H1 |]. split; [exact H2 |]. split; [exact H3 |].
  split; [exact H4 |]. split.
  - intros Math Hs1 Hs2 Hc1 Hc2 Hnan. unfold getDistanceFromLatLonInKm.
    rewrite H1, H2, H3, H4, Hs1, Hs2, Hc1, Hc2.
    match goal with
    | |- mul _ (mul _ (atan2 _ _ (sqrt (sub _ ?a)))) = _ =>
        assert (Ha : sqrt (sub (ofZ 1) a) = S754_nan) by (vm_compute; reflexivity)
    end.
    rewrite Ha, Hnan. reflexivity.
  - vm_compute. reflexivity.
Qed.

(** ** The three parts together *)

(** C8, amended.  In binary64, with a [Math] object that conforms: the
    distance of a point to itself is exactly [+0] when the latitude is at
    most 90 degrees in magnitude and the longitude is a finite number; the
    distance is symmetric in its endpoints for all arguments; and the
    result is never a negative number, but it can be [NaN] instead of a
    number, as it is for nearly antipodal points. *)
Theorem distance_in_binary64 (Math : MathObject) :
  Conforming Math ->
  (forall lat lon : float,
      valid_binary prec emax lat = true ->
      SFleb (SFabs lat) (ofZ 90) = true ->
      is_finite lon = true ->
      getDistanceFromLatLonInKm Math lat lon lat lon = S754_zero false)
  /\ (forall lat1 lon1 lat2 lon2 : float,
         getDistanceFromLatLonInKm Math lat1 lon1 lat2 lon2
         = getDistanceFromLatLonInKm Math lat2 lon2 lat1 lon1)
  /\ (forall lat1 lon1 lat2 lon2 : float,
         getDistanceFromLatLonInKm Math lat1 lon1 lat2 lon2 = S754_nan
         \/ SFleb (S754_zero false)
                  (getDistanceFromLatLonInKm Math lat1 lon1 lat2 lon2) = true).
Proof.
  intros HM. split; [| split].
  - intros lat lon Hv Hle Hlon. now apply distance_same_point.
  - intros lat1 lon1 lat2 lon2. apply distance_symmetric. apply (sin_odd Math HM).
  - intros lat1 lon1 lat2 lon2. now apply distance_not_negative.
Qed.

Lemma distance_in_binary64_witness :
  Conforming tableMath
  /\ getDistanceFromLatLonInKm tableMath
       (SFopp (dyadic 175 (-1))) (ofZ 0) (SFopp (dyadic 175 (-1))) (ofZ 0)
     = S754_zero false
  /\ getDistanceFromLatLonInKm tableMath
       (SFopp (dyadic 175 (-1))) (ofZ 0) (dyadic 175 (-1)) (ofZ 180)
     = getDistanceFromLatLonInKm tableMath
         (dyadic 175 (-1)) (ofZ 180) (SFopp (dyadic 175 (-1))) (ofZ 0).
Proof.
  split; [exact tableMath_conforming |].
  destruct (distance_in_binary64 tableMath tableMath_conforming) as (H1 & H2 & _).
  split; [apply H1; reflexivity | apply H2].
Defined.

End Binary64Facts.
